(** * Reddit user persona generator: model and properties

    A shallow embedding of [persona_spez.py] (the console generator, class
    [RedditPersonaGenerator]) and of [reddit_persona.py] (the dashboard), with
    the properties their specification states.

    Python values are modelled as follows.
    - [str] is a sequence of Unicode code points, [list N].
    - [str.lower], [re.sub] over a character class, [str.split] and the
      substring test [in] are interpreters of the language's documented
      behaviour.  The ASCII part of the character database is written out;
      the rest of it is a parameter [U : UnicodeData].
    - [total / len] is a Python float, the double nearest to the quotient; it
      is modelled by the exact rational.  The comparisons with 75 and 40 give
      the same result on both as long as the batch has fewer than 2^40
      texts.
    - A dict with a fixed set of keys is a record, a key that may be absent is
      an [option] field; a dict filled during iteration is an association
      list in insertion order.
    - A call that may raise returns a [result]. *)

From Stdlib Require Import List NArith ZArith QArith Bool String Ascii Lia.
From Stdlib Require DecimalString.
From Stdlib Require Import Permutation Sorted Lqa.
Import ListNotations.
Close Scope Q_scope.

Set Implicit Arguments.

(** ** Python strings *)

Definition str := list N.

(** A string literal of the source that holds ASCII characters only. *)
Definition lit (s : string) : str := map N_of_ascii (list_ascii_of_string s).

(** [a == b] *)
Fixpoint str_eqb (a b : str) : bool :=
  match a, b with
  | [], [] => true
  | x :: a', y :: b' => (x =? y)%N && str_eqb a' b'
  | _, _ => false
  end.

(** ** The character database *)

(** What Python's Unicode database says about the code points from 128 on:
    the full lowercase mapping, [str.isalnum], [str.isspace], and the derived
    properties Cased and Case_Ignorable (they are read for every code point,
    and only next to a capital sigma). *)
Record UnicodeData := {
  ud_lower : N -> list N;
  ud_alnum : N -> bool;
  ud_space : N -> bool;
  ud_cased : N -> bool;
  ud_case_ignorable : N -> bool
}.

Module Char.
Local Open Scope N_scope.

Definition between (lo hi c : N) : bool := (lo <=? c) && (c <=? hi).

Definition is_ascii (c : N) : bool := c <? 128.
Definition ascii_upper (c : N) : bool := between 65 90 c.
Definition ascii_lower (c : N) : bool := between 97 122 c.
Definition ascii_digit (c : N) : bool := between 48 57 c.

(** [string.punctuation]: the printable ASCII characters that are neither
    letters nor digits nor the space. *)
Definition ascii_punctuation (c : N) : bool :=
  between 33 47 c || between 58 64 c || between 91 96 c || between 123 126 c.

Definition underscore : N := 95.
Definition capital_sigma : N := 0x3A3.
Definition small_sigma : N := 0x3C3.
Definition final_small_sigma : N := 0x3C2.

Section WithDatabase.
Variable U : UnicodeData.

(** The lowercase mapping of one code point, context not considered. *)
Definition to_lower_full (c : N) : list N :=
  if is_ascii c then [if ascii_upper c then c + 32 else c]
  else ud_lower U c.

Definition isalnum (c : N) : bool :=
  if is_ascii c then ascii_digit c || ascii_upper c || ascii_lower c
  else ud_alnum U c.

(** ASCII white space: tab, line feed, vertical tab, form feed, carriage
    return, the four separators 28..31 and the space. *)
Definition isspace (c : N) : bool :=
  if is_ascii c then between 9 13 c || between 28 32 c
  else ud_space U c.

(** [\w] of a [str] pattern: alphanumeric or the underscore. *)
Definition word_char (c : N) : bool := isalnum c || (c =? underscore).

(** [[^\w\s]] *)
Definition not_word_not_space (c : N) : bool :=
  negb (word_char c || isspace c).
End WithDatabase.
End Char.

(** ** [str.lower] *)

Section Lower.
Variable U : UnicodeData.
Local Open Scope N_scope.

Fixpoint skip_case_ignorable (l : list N) : list N :=
  match l with
  | [] => []
  | c :: l' => if ud_case_ignorable U c then skip_case_ignorable l' else l
  end.

(** A capital sigma is in final position when the nearest character before
    it that is not case-ignorable is cased, and the nearest one after it
    that is not case-ignorable is missing or not cased.  [before] is the
    text in front of the sigma, nearest character first. *)
Definition final_sigma (before after : list N) : bool :=
  match skip_case_ignorable before with
  | [] => false
  | c :: _ =>
      ud_cased U c &&
      match skip_case_ignorable after with
      | [] => true
      | d :: _ => negb (ud_cased U d)
      end
  end.

Fixpoint lower_from (before : list N) (s : str) : str :=
  match s with
  | [] => []
  | c :: rest =>
      (if c =? Char.capital_sigma
       then [if final_sigma before rest
             then Char.final_small_sigma else Char.small_sigma]
       else Char.to_lower_full U c)
      ++ lower_from (c :: before) rest
  end.

Definition lower (s : str) : str := lower_from [] s.
End Lower.

(** ** [re.sub], [str.split], [in] *)

(** [re.sub(p, repl, s)] for a pattern [p] that is one character class: the
    matches are the characters of the class, each replaced by [repl]. *)
Fixpoint re_sub_class (cls : N -> bool) (repl s : str) : str :=
  match s with
  | [] => []
  | c :: rest => (if cls c then repl else [c]) ++ re_sub_class cls repl rest
  end.

(** [s.split()]: the maximal runs of characters that are not white space.
    [cur] is the run being read, last character first. *)
Fixpoint split_from (space : N -> bool) (cur : str) (s : str) : list str :=
  match s with
  | [] => match cur with [] => [] | _ => [rev cur] end
  | c :: rest =>
      if space c
      then match cur with
           | [] => split_from space [] rest
           | _ => rev cur :: split_from space [] rest
           end
      else split_from space (c :: cur) rest
  end.

Definition split (U : UnicodeData) (s : str) : list str :=
  split_from (Char.isspace U) [] s.

Fixpoint startswith (s p : str) {struct p} : bool :=
  match p, s with
  | [], _ => true
  | _ :: _, [] => false
  | a :: p', b :: s' => (a =? b)%N && startswith s' p'
  end.

(** [sub in s] *)
Fixpoint contains (sub s : str) : bool :=
  startswith s sub ||
  match s with
  | [] => false
  | _ :: s' => contains sub s'
  end.

(** [any(x in s for x in subs)] *)
Definition any_in (subs : list str) (s : str) : bool :=
  existsb (fun x => contains x s) subs.

(** [sum(1 for t in texts if p(t))] *)
Definition count_if (A : Type) (p : A -> bool) (l : list A) : nat :=
  List.length (filter p l).

(** [d[k] = f(d[k])] on a [defaultdict] whose missing values are [dflt];
    the keys stay in the order of their first insertion. *)
Fixpoint update_default (V : Type) (dflt : V) (f : V -> V) (k : str)
    (d : list (str * V)) : list (str * V) :=
  match d with
  | [] => [(k, f dflt)]
  | (k', v) :: d' =>
      if str_eqb k k' then (k', f v) :: d'
      else (k', v) :: update_default dflt f k d'
  end.

(** [min(xs)] over a non-empty sequence starting with [x]: the first of the
    least items. *)
Definition py_min (A : Type) (ltb : A -> A -> bool) (x : A) (xs : list A) : A :=
  fold_left (fun m y => if ltb y m then y else m) xs x.

(** [sorted(items, key=lambda x: x[1], reverse=True)]: a stable sort, items
    of equal count keep their order. *)
Fixpoint insert_desc (x : str * nat) (l : list (str * nat)) : list (str * nat) :=
  match l with
  | [] => [x]
  | y :: l' => if snd y <=? snd x then x :: l else y :: insert_desc x l'
  end.

Fixpoint sorted_by_count_desc (items : list (str * nat)) : list (str * nat) :=
  match items with
  | [] => []
  | x :: rest => insert_desc x (sorted_by_count_desc rest)
  end.

(** [str(n)] on a non-negative int. *)
Definition str_of_nat (n : nat) : str :=
  lit (DecimalString.NilZero.string_of_uint (Nat.to_uint n)).

(** ** Exceptions *)

(** The outcome of a call: a value, or an exception [e], of which the code
    reads [str(e)] only. *)
Inductive result (A : Type) : Type :=
| Ok (a : A)
| Raise (msg : str).
Arguments Raise {A} msg.

Definition bind (A B : Type) (r : result A) (k : A -> result B) : result B :=
  match r with
  | Ok a => k a
  | Raise msg => Raise msg
  end.

Notation "x <- e ;; k" := (bind e (fun x => k))
  (at level 61, e at next level, right associativity).

(** [a / b] on two non-negative ints. *)
Definition truediv (a b : nat) : result Q :=
  match b with
  | O => Raise (lit "division by zero")
  | S _ => Ok (Qred (Z.of_nat a # Pos.of_nat b)%Q)
  end.

(** [x > y] on numbers. *)
Definition Qgtb (x y : Q) : bool := negb (Qle_bool x y).

(** [d[key]] on a dict in which [key] may be missing; [str] of a [KeyError]
    is the key in quotes. *)
Definition getitem (A : Type) (key : str) (value : option A) : result A :=
  match value with
  | Some a => Ok a
  | None => Raise (lit "'" ++ key ++ lit "'")
  end.

(** [str(z)] on an int. *)
Definition str_of_Z (z : Z) : str :=
  lit (DecimalString.NilZero.string_of_int (Z.to_int z)).

(** [sep.join(items)] *)
Fixpoint join (sep : str) (items : list str) : str :=
  match items with
  | [] => []
  | [item] => item
  | item :: rest => item ++ sep ++ join sep rest
  end.

(** ** The platform and the clock *)

(** The part of [datetime] the programs use.  [fromtimestamp] converts to
    local time, so the order of two datetimes is the library's, not the order
    of the timestamps.  The timestamps the platform delivers are taken to be in
    the range [fromtimestamp] accepts. *)
Record DatetimeLib := {
  datetime : Type;
  fromtimestamp : Q -> datetime;
  datetime_ltb : datetime -> datetime -> bool;
  datetime_str : datetime -> str;
  strftime_Ymd : datetime -> str;
  hour : datetime -> nat
}.

(** A comment or a submission as the listing delivers it. *)
Record Comment := {
  body : str;
  comment_created_utc : Q;
  comment_subreddit : str;
  comment_permalink : str
}.

Record Submission := {
  title : str;
  submission_subreddit : str;
  submission_permalink : str
}.

(** [reddit.redditor(username)]: a lazy handle; each read of it is a request
    that may raise an [Exception].  The fields of a comment or a submission
    come with the listing and are read without a request. *)
Record Redditor := {
  user_comments_new : nat -> result (list Comment);
  user_submissions_new : nat -> result (list Submission);
  user_created_utc : result Q;
  user_comment_karma : result Z;
  user_link_karma : result Z
}.

Definition Reddit := str -> Redditor.

(** ** [persona_spez.py]: class [RedditPersonaGenerator] *)

Module Console.

(** The dict [analyze_writing_style] returns.  [Readability] is set in the
    result for no text only, the two frequencies in the other one only. *)
Record Style := {
  Description : str;
  Average_Word_Count : Q;
  Emoji_Usage : nat;
  Formality_Score : nat;
  Readability : option str;
  Question_Frequency : option nat;
  Exclamation_Frequency : option nat
}.

Record ActivitySummary (D : DatetimeLib) := {
  Total_Comments : nat;
  Total_Posts : nat;
  Comment_Karma : Z;
  Post_Karma : Z;
  First_Seen : datetime D + str
}.

Record Citations := {
  Comments : list str;
  Posts : list str
}.

Record Persona (D : DatetimeLib) := {
  Username : str;
  Account_Age : str;
  Writing_Style : Style;
  Preferred_Subreddits : list (str * nat);
  Interests_Hobbies : list (str * list str);
  Personality_Traits : list (str * list str);
  Activity_Summary : ActivitySummary D;
  Citations_ : Citations
}.

(** What [generate_persona] returns: the dict with the single key
    ["error"], or the report. *)
Inductive PersonaDict (D : DatetimeLib) : Type :=
| Error (error : str)
| Report (persona : Persona D).
Arguments Error {D} error.

Definition emojis : list str :=
  [[0x1F602]; [0x1F60A]; [0x2764; 0xFE0F]]%N.

Definition formal_words : list str :=
  [lit "however"; lit "therefore"; lit "moreover"].

Definition interest_keywords : list (str * list str) :=
  [ (lit "Technology",
     [lit "python"; lit "programming"; lit "javascript"; lit "linux"; lit "github"]);
    (lit "Gaming",
     [lit "game"; lit "gaming"; lit "playstation"; lit "xbox"; lit "nintendo"]);
    (lit "Sports",
     [lit "football"; lit "basketball"; lit "soccer"; lit "nba"; lit "nfl"]);
    (lit "Movies/TV",
     [lit "movie"; lit "netflix"; lit "marvel"; lit "star wars"; lit "tv show"]);
    (lit "Science",
     [lit "space"; lit "physics"; lit "biology"; lit "research"; lit "astronomy"]) ].

Section Generator.
Variable U : UnicodeData.

Definition _clean_text (text : str) : str :=
  re_sub_class (Char.not_word_not_space U) [] (lower U text).

Definition no_text : Style :=
  {| Description := lit "No text available";
     Average_Word_Count := 0%Q;
     Emoji_Usage := 0;
     Formality_Score := 0;
     Readability := Some (lit "N/A");
     Question_Frequency := None;
     Exclamation_Frequency := None |}.

Definition total_words (texts : list str) : nat :=
  list_sum (map (fun t => List.length (split U t)) texts).

(** The body of [analyze_writing_style] below its guard. *)
Definition style_metrics (texts : list str) : result Style :=
  avg_word_count <- truediv (total_words texts) (List.length texts) ;;
  let emoji_usage := count_if (any_in emojis) texts in
  let formality_score :=
    count_if (fun t => any_in formal_words (_clean_text t)) texts in
  let question_frequency := count_if (contains (lit "?")) texts in
  let exclamation_frequency := count_if (contains (lit "!")) texts in
  let description :=
    if Qgtb avg_word_count 75%Q then lit "Detailed and analytical"
    else if Qgtb avg_word_count 40%Q then lit "Balanced and thoughtful"
    else if 3 <? emoji_usage then lit "Casual and expressive"
    else if 5 <? formality_score then lit "Formal and structured"
    else lit "Straightforward and concise" in
  Ok {| Description := description;
        Average_Word_Count := avg_word_count;
        Emoji_Usage := emoji_usage;
        Formality_Score := formality_score;
        Readability := None;
        Question_Frequency := Some question_frequency;
        Exclamation_Frequency := Some exclamation_frequency |}.

Definition analyze_writing_style (texts : list str) : result Style :=
  match texts with
  | [] => Ok no_text
  | _ :: _ => style_metrics texts
  end.

Definition detect_interests (text : str) : list str :=
  let text := _clean_text text in
  fold_left
    (fun interests entry =>
       let '(category, keywords) := entry in
       if any_in keywords text then interests ++ [category] else interests)
    interest_keywords [].

Definition detect_personality_traits (text : str) : list str :=
  let text := _clean_text text in
  let traits := [] in
  let traits :=
    if any_in [lit "i think"; lit "in my opinion"; lit "i believe"] text
    then traits ++ [lit "Opinionated"] else traits in
  let traits :=
    if any_in [lit "lol"; lit "haha"; lit "funny"; lit "joke"] text
    then traits ++ [lit "Humorous"] else traits in
  let traits :=
    if any_in [lit "help"; lit "advice"; lit "suggestion"] text
    then traits ++ [lit "Helpful"] else traits in
  let traits :=
    if any_in [lit "why"; lit "how"; lit "explain"] text
    then traits ++ [lit "Curious"] else traits in
  traits.

Section Persona.
Variable D : DatetimeLib.
Variable reddit : Reddit.

(** The three dicts the loop over the comments fills. *)
Definition Tally : Type :=
  (list (str * nat) * list (str * list str) * list (str * list str))%type.

Definition cite (permalink : str) (d : list (str * list str)) (label : str) :=
  update_default [] (fun urls => urls ++ [permalink]) label d.

Definition analyze_comment (acc : Tally) (comment : Comment) : Tally :=
  let '(subreddits, interests, traits) := acc in
  (update_default 0 S (comment_subreddit comment) subreddits,
   fold_left (cite (comment_permalink comment))
     (detect_interests (body comment)) interests,
   fold_left (cite (comment_permalink comment))
     (detect_personality_traits (body comment)) traits).

Definition first_seen (comments : list Comment) : datetime D + str :=
  match map (fun c => fromtimestamp D (comment_created_utc c)) comments with
  | [] => inr (lit "N/A")
  | d :: ds => inl (py_min (datetime_ltb D) d ds)
  end.

(** The body of the [try]. *)
Definition generate_persona_try (username : str) : result (PersonaDict D) :=
  let user := reddit username in
  comments <- user_comments_new user 100 ;;
  posts <- user_submissions_new user 100 ;;
  match comments, posts with
  | [], [] => Ok (Error (lit "No public activity found"))
  | _, _ =>
      let all_texts := map body comments ++ map title posts in
      created <- user_created_utc user ;;
      writing_style <- analyze_writing_style all_texts ;;
      comment_karma <- user_comment_karma user ;;
      post_karma <- user_link_karma user ;;
      let '(subreddits, interests, traits) :=
        fold_left analyze_comment comments ([], [], []) in
      Ok (Report
        {| Username := lit "u/" ++ username;
           Account_Age := datetime_str D (fromtimestamp D created);
           Writing_Style := writing_style;
           Preferred_Subreddits := subreddits;
           Interests_Hobbies := interests;
           Personality_Traits := traits;
           Activity_Summary :=
             {| Total_Comments := List.length comments;
                Total_Posts := List.length posts;
                Comment_Karma := comment_karma;
                Post_Karma := post_karma;
                First_Seen := first_seen comments |};
           Citations_ :=
             {| Comments := map comment_permalink (firstn 3 comments);
                Posts := map submission_permalink (firstn 3 posts) |} |})
  end.

(** [except Exception as e: return {"error": str(e)}] *)
Definition generate_persona (username : str) : PersonaDict D :=
  match generate_persona_try username with
  | Ok persona => persona
  | Raise msg => Error msg
  end.

(** [format_output], the section on the subreddits: the list [top_subs]
    and the lines appended to the output, the heading first. *)
Definition top_subs (persona : Persona D) : list (str * nat) :=
  firstn 5 (sorted_by_count_desc (Preferred_Subreddits persona)).

Definition subreddit_activity_lines (persona : Persona D) : list str :=
  ([10; 0x1F3C6]%N ++ lit " SUBREDDIT ACTIVITY:")
  :: map (fun entry =>
            let '(sub, count) := entry in
            lit "- r/" ++ sub ++ lit ": " ++ str_of_nat count ++ lit " interactions")
       (top_subs persona).

Section Output.
(** [f"{x:.1f}"]: the float nearest to [x], printed with one decimal. *)
Variable format_1f : Q -> str.

(** The lines of the interests and of the traits. *)
Definition label_lines (labels : list (str * list str)) : list str :=
  map (fun entry =>
         let '(label, urls) := entry in
         lit "- " ++ label ++ lit " (cited " ++ str_of_nat (List.length urls)
         ++ lit " times)")
    labels.

Definition url_lines (urls : list str) : list str :=
  map (fun url => lit "  " ++ [0x2022]%N ++ lit " " ++ url) (firstn 3 urls).

(** [format_output]: the text of the report, or the [KeyError] of a style
    without its frequencies. *)
Definition format_output (persona : PersonaDict D) : result str :=
  match persona with
  | Error error =>
      Ok ([0x274C]%N ++ lit " Error generating persona: " ++ error)
  | Report persona =>
      let ws := Writing_Style persona in
      question_frequency <-
        getitem (lit "Question Frequency") (Question_Frequency ws) ;;
      exclamation_frequency <-
        getitem (lit "Exclamation Frequency") (Exclamation_Frequency ws) ;;
      let activity := Activity_Summary persona in
      Ok (join [10%N]
            ([ [0x1F539]%N ++ lit " REDDIT USER PERSONA: " ++ Username persona;
               [0x1F4C5]%N ++ lit " Account Created: " ++ Account_Age persona;
               [10; 0x270D; 0xFE0F]%N ++ lit " WRITING STYLE ANALYSIS:";
               lit "- Primary Style: " ++ Description ws;
               lit "- Avg. words per post: " ++ format_1f (Average_Word_Count ws);
               lit "- Emoji usage: " ++ str_of_nat (Emoji_Usage ws) ++ lit " times";
               lit "- Questions asked: " ++ str_of_nat question_frequency
               ++ lit " times";
               lit "- Exclamations used: " ++ str_of_nat exclamation_frequency
               ++ lit " times" ]
             ++ subreddit_activity_lines persona
             ++ ([10; 0x1F3AF]%N ++ lit " DETECTED INTERESTS:")
                :: label_lines (Interests_Hobbies persona)
             ++ ([10; 0x1F9E0]%N ++ lit " PERSONALITY TRAITS:")
                :: label_lines (Personality_Traits persona)
             ++ [ [10; 0x1F4CA]%N ++ lit " ACTIVITY SUMMARY:";
                  lit "- Comments: " ++ str_of_nat (Total_Comments activity)
                  ++ lit " (Karma: " ++ str_of_Z (Comment_Karma activity) ++ lit ")";
                  lit "- Posts: " ++ str_of_nat (Total_Posts activity)
                  ++ lit " (Karma: " ++ str_of_Z (Post_Karma activity) ++ lit ")";
                  lit "- First seen: "
                  ++ match First_Seen activity with
                     | inl seen => datetime_str D seen
                     | inr text => text
                     end;
                  [10; 0x1F50D]%N ++ lit " EXAMPLE CONTENT:";
                  lit "- Recent comments:" ]
             ++ url_lines (Comments (Citations_ persona))
             ++ lit "- Recent posts:"
                :: url_lines (Posts (Citations_ persona))))
  end.
End Output.

(** [save_to_file]: the path the report is written to, and returned;
    [timestamp] is [datetime.now().strftime("%Y%m%d_%H%M%S")]. *)
Definition filename (username timestamp : str) : str :=
  lit "personas/" ++ username ++ lit "_persona_" ++ timestamp ++ lit ".txt".
End Persona.
End Generator.
End Console.

(** ** [reddit_persona.py]: the dashboard *)

Module Dashboard.

(** The dict [analyze_writing_style] returns: the single key
    ["Description"], or the three metrics and ["style"]. *)
Record Style := {
  Description : option str;
  avg_word_count : option Q;
  emoji_use : option nat;
  formality : option nat;
  style : option str
}.

Record Persona := {
  username : str;
  account_age : str;
  post_karma : Z;
  comment_karma : Z;
  writing_style : Style;
  interests : list str;
  traits : list str;
  subreddit_activity : list (str * nat);
  activity_hours : list nat;
  sample_comments : list str;
  sample_posts : list str
}.

Inductive PersonaDict : Type :=
| Error (error : str)
| Report (persona : Persona).

Definition emojis : list str :=
  [[0x1F602]; [0x1F60A]; [0x2764; 0xFE0F]]%N.

Definition categories : list (str * list str) :=
  [ (lit "Technology", [lit "python"; lit "programming"; lit "javascript"]);
    (lit "Gaming", [lit "game"; lit "gaming"; lit "playstation"]);
    (lit "Sports", [lit "football"; lit "basketball"; lit "soccer"]) ].

Section Analysis.
Variable U : UnicodeData.

Definition clean_text (text : str) : str :=
  re_sub_class (Char.not_word_not_space U) [] (lower U text).

Definition no_text : Style :=
  {| Description := Some (lit "No text available");
     avg_word_count := None;
     emoji_use := None;
     formality := None;
     style := None |}.

(** The body of [analyze_writing_style] below its guard. *)
Definition style_metrics (texts : list str) : result Style :=
  avg <- truediv (list_sum (map (fun t => List.length (split U t)) texts))
           (List.length texts) ;;
  let emoji := count_if (any_in emojis) texts in
  let formal :=
    count_if (fun t => any_in [lit "however"; lit "therefore"] (clean_text t))
      texts in
  let label :=
    if Qgtb avg 75%Q then lit "Detailed/analytical"
    else if 3 <? emoji then lit "Casual/expressive"
    else lit "Straightforward" in
  Ok {| Description := None;
        avg_word_count := Some avg;
        emoji_use := Some emoji;
        formality := Some formal;
        style := Some label |}.

Definition analyze_writing_style (texts : list str) : result Style :=
  match texts with
  | [] => Ok no_text
  | _ :: _ => style_metrics texts
  end.

Definition detect_interests (text : str) : list str :=
  let text := clean_text text in
  map fst (filter (fun entry => any_in (snd entry) text) categories).

Section Persona.
Variable D : DatetimeLib.
(** [list(set(xs))]: the order in which a set of strings is iterated
    follows the hashes of the process. *)
Variable list_of_set : list str -> list str.
Variable reddit : Reddit.

(** [Counter(xs)] *)
Definition Counter (xs : list str) : list (str * nat) :=
  fold_left (fun d x => update_default 0 S x d) xs [].

(** [c.most_common(n)] *)
Definition most_common (n : nat) (c : list (str * nat)) : list (str * nat) :=
  firstn n (sorted_by_count_desc c).

(** The body of the [try]. *)
Definition generate_persona_try (name : str) : result PersonaDict :=
  let user := reddit name in
  comments <- user_comments_new user 100 ;;
  posts <- user_submissions_new user 100 ;;
  match comments, posts with
  | [], [] => Ok (Error (lit "No public activity found"))
  | _, _ =>
      let all_texts := map body comments ++ map title posts in
      let subreddits :=
        map comment_subreddit comments ++ map submission_subreddit posts in
      created <- user_created_utc user ;;
      link <- user_link_karma user ;;
      karma <- user_comment_karma user ;;
      ws <- analyze_writing_style all_texts ;;
      Ok (Report
        {| username := lit "u/" ++ name;
           account_age := strftime_Ymd D (fromtimestamp D created);
           post_karma := link;
           comment_karma := karma;
           writing_style := ws;
           interests := list_of_set (flat_map detect_interests all_texts);
           traits :=
             if existsb (fun t => contains (lit "i think") (clean_text t))
                  all_texts
             then [lit "Opinionated"] else [];
           subreddit_activity := most_common 10 (Counter subreddits);
           activity_hours :=
             map (fun c => hour D (fromtimestamp D (comment_created_utc c)))
               comments;
           sample_comments :=
             map (fun c => firstn 200 (body c) ++ lit "...") (firstn 3 comments);
           sample_posts := map title (firstn 3 posts) |})
  end.

(** [except Exception as e: return {"error": str(e)}] *)
Definition generate_persona (name : str) : PersonaDict :=
  match generate_persona_try name with
  | Ok persona => persona
  | Raise msg => Error msg
  end.
End Persona.
End Analysis.
End Dashboard.

(** ** [persona_spez.py]: the prompt of the main loop *)

Module Main.

(** [s.lstrip(chars)], [s.rstrip(chars)] and [s.strip(chars)], the set of
    characters given by its membership test. *)
Fixpoint lstrip (chars : N -> bool) (s : str) : str :=
  match s with
  | [] => []
  | c :: rest => if chars c then lstrip chars rest else s
  end.

Definition rstrip (chars : N -> bool) (s : str) : str :=
  rev (lstrip chars (rev s)).

Definition strip (chars : N -> bool) (s : str) : str :=
  rstrip chars (lstrip chars s).

(** [s.split(sep)] for a separator that is not empty: the pieces between
    the occurrences of [sep], found from the left.  [skip] is the number of
    characters of a found separator that are still to be passed, [cur] the
    piece being read, last character first. *)
Fixpoint split_sep (sep : str) (skip : nat) (cur : str) (s : str) : list str :=
  match s with
  | [] => [rev cur]
  | c :: rest =>
      match skip with
      | S skip' => split_sep sep skip' cur rest
      | O =>
          if startswith s sep
          then rev cur :: split_sep sep (List.length sep - 1) [] rest
          else split_sep sep 0 (c :: cur) rest
      end
  end.

(** [items[i]] *)
Definition getindex (A : Type) (items : list A) (i : nat) : result A :=
  match nth_error items i with
  | Some item => Ok item
  | None => Raise (lit "list index out of range")
  end.

(** What the loop does with a line of input: it ends, or it analyzes a
    user. *)
Inductive Command : Type :=
| Quit
| Analyze (username : str).

Definition read_username (U : UnicodeData) (line : str) : result Command :=
  let username := strip (Char.isspace U) line in
  if str_eqb (lower U username) (lit "quit") then Ok Quit
  else if contains (lit "/user/") username
  then
    piece <- getindex (split_sep (lit "/user/") 0 [] username) 1 ;;
    Ok (Analyze (rstrip (N.eqb 47) piece))
  else Ok (Analyze username).

End Main.

(** * Vocabulary of the statements *)

(** The characters the pattern [[^\w\s]] does not match. *)
Definition kept (U : UnicodeData) (c : N) : bool :=
  Char.isalnum U c || (c =? Char.underscore)%N || Char.isspace U c.

(** Fixed by the lowercase mapping, and not the one character whose mapping
    depends on the context. *)
Definition fixed (U : UnicodeData) (d : N) : Prop :=
  d <> Char.capital_sigma /\ Char.to_lower_full U d = [d].

(** What the proofs about [str.lower] ask of the character database: a
    character that a lowercase mapping produces is mapped to itself, the
    capital sigma is mapped to the small one when no context is given, and
    the final small sigma is mapped to itself.  The Unicode character
    database has this property: its lowercase mappings produce only
    characters that have no lowercase mapping of their own. *)
Record CaseStable (U : UnicodeData) : Prop := {
  lower_of_lower :
    forall c d, In d (Char.to_lower_full U c) -> Char.to_lower_full U d = [d];
  lower_of_capital_sigma :
    Char.to_lower_full U Char.capital_sigma = [Char.small_sigma];
  lower_of_final_sigma :
    Char.to_lower_full U Char.final_small_sigma = [Char.final_small_sigma]
}.

(** A database that knows the ASCII letters and the Greek sigma only; it
    serves as the instance of the examples. *)
Definition sigma_db : UnicodeData :=
  let sigma c :=
    ((c =? Char.capital_sigma) || (c =? Char.small_sigma)
     || (c =? Char.final_small_sigma))%N in
  {| ud_lower := fun c =>
       if (c =? Char.capital_sigma)%N then [Char.small_sigma] else [c];
     ud_alnum := sigma;
     ud_space := fun _ => false;
     ud_cased := fun c => Char.ascii_upper c || Char.ascii_lower c || sigma c;
     ud_case_ignorable := fun c => (c =? 39)%N || (c =? 46)%N |}.

(** A database that is not stable: it maps U+0100 to the capital A. *)
Definition unstable_db : UnicodeData :=
  {| ud_lower := fun c => if (c =? 0x100)%N then [65%N] else [c];
     ud_alnum := fun _ => true;
     ud_space := fun _ => false;
     ud_cased := fun _ => false;
     ud_case_ignorable := fun _ => false |}.

(** A clock whose datetimes are the timestamps themselves. *)
Definition plain_clock : DatetimeLib :=
  {| datetime := Q;
     fromtimestamp := fun t => t;
     datetime_ltb := fun a b => negb (Qle_bool b a);
     datetime_str := fun _ => lit "1970-01-01 00:00:00";
     strftime_Ymd := fun _ => lit "1970-01-01";
     hour := fun _ => 0 |}.

(** The keyword lists of the four tests of [detect_personality_traits], as a
    table from the label to its keywords. *)
Definition trait_keywords : list (str * list str) :=
  [ (lit "Opinionated", [lit "i think"; lit "in my opinion"; lit "i believe"]);
    (lit "Humorous", [lit "lol"; lit "haha"; lit "funny"; lit "joke"]);
    (lit "Helpful", [lit "help"; lit "advice"; lit "suggestion"]);
    (lit "Curious", [lit "why"; lit "how"; lit "explain"]) ].

(** [sub] occurs in [s] as a run of consecutive characters. *)
Definition substring (sub s : str) : Prop :=
  exists before after, s = before ++ sub ++ after.

(** A label of [table] is matched by [text] when one of its keywords is a
    substring of [text]. *)
Definition matched (table : list (str * list str)) (text label : str) : Prop :=
  exists keywords keyword,
    In (label, keywords) table /\ In keyword keywords /\ substring keyword text.

(** No string occurs twice. *)
Fixpoint distinct (l : list str) : bool :=
  match l with
  | [] => true
  | x :: rest => negb (existsb (str_eqb x) rest) && distinct rest
  end.


(** Five texts of 80 words each, the last word of each an emoji. *)
Definition emoji_batch : list str :=
  repeat (List.concat (repeat (lit "word ") 79) ++ [0x1F602]%N) 5.

(** Four texts of 42 words each, the last word of each an emoji. *)
Definition chatty_emoji_batch : list str :=
  repeat (List.concat (repeat (lit "word ") 41) ++ [0x1F602]%N) 4.

(** Four texts of 42 words each, none with an emoji. *)
Definition chatty_plain_batch : list str :=
  repeat (List.concat (repeat (lit "word ") 41) ++ lit "word") 4.

(** Six texts of one word, a formal connective. *)
Definition formal_batch : list str :=
  repeat (lit "however") 6.

(** A platform on which the account has no activity and every read of its
    metadata raises. *)
Definition silent_reddit : Reddit := fun _ =>
  {| user_comments_new := fun _ => Ok [];
     user_submissions_new := fun _ => Ok [];
     user_created_utc := Raise (lit "received 404 HTTP response");
     user_comment_karma := Raise (lit "received 404 HTTP response");
     user_link_karma := Raise (lit "received 404 HTTP response") |}.

(** A platform on which the account has one submission and no comment. *)
Definition poster_reddit : Reddit := fun _ =>
  {| user_comments_new := fun _ => Ok [];
     user_submissions_new := fun _ =>
       Ok [ {| title := lit "Hello";
               submission_subreddit := lit "test";
               submission_permalink := lit "/r/test/1" |} ];
     user_created_utc := Ok 0%Q;
     user_comment_karma := Ok 1%Z;
     user_link_karma := Ok 2%Z |}.

(** The account of scenario B: two comments, no submission. *)
Definition scenario_B_comments : list Comment :=
  [ {| body := lit "I think Python is great, however it's slow";
       comment_created_utc := 1700000000%Q;
       comment_subreddit := lit "learnpython";
       comment_permalink := lit "/r/learnpython/comments/1/" |};
    {| body := lit "lol that's hilarious";
       comment_created_utc := 1700000600%Q;
       comment_subreddit := lit "funny";
       comment_permalink := lit "/r/funny/comments/2/" |} ].

Definition scenario_B_reddit : Reddit := fun _ =>
  {| user_comments_new := fun _ => Ok scenario_B_comments;
     user_submissions_new := fun _ => Ok [];
     user_created_utc := Ok 1600000000%Q;
     user_comment_karma := Ok 10%Z;
     user_link_karma := Ok 1%Z |}.

(** The account of scenario C: three comments in "test", one in "other". *)
Definition scenario_C_reddit : Reddit := fun _ =>
  let comment_in subreddit :=
    {| body := lit "ok";
       comment_created_utc := 1700000000%Q;
       comment_subreddit := subreddit;
       comment_permalink := lit "/r/" ++ subreddit ++ lit "/comments/1/" |} in
  {| user_comments_new := fun _ =>
       Ok [comment_in (lit "other"); comment_in (lit "test");
           comment_in (lit "test"); comment_in (lit "test")];
     user_submissions_new := fun _ => Ok [];
     user_created_utc := Ok 1600000000%Q;
     user_comment_karma := Ok 10%Z;
     user_link_karma := Ok 1%Z |}.

(** A platform that delivers the comments of scenario B and fails on the
    listing of the submissions. *)
Definition flaky_reddit : Reddit := fun _ =>
  {| user_comments_new := fun _ => Ok scenario_B_comments;
     user_submissions_new := fun _ => Raise (lit "received 503 HTTP response");
     user_created_utc := Ok 1600000000%Q;
     user_comment_karma := Ok 10%Z;
     user_link_karma := Ok 1%Z |}.

(** [d.get(k)] *)
Fixpoint lookup (V : Type) (k : str) (d : list (str * V)) : option V :=
  match d with
  | [] => None
  | (k', v) :: d' => if str_eqb k k' then Some v else lookup k d'
  end.

(** [label in labels] *)
Definition has_label (labels : list str) (label : str) : bool :=
  existsb (str_eqb label) labels.

(** How often [x] occurs in [xs]. *)
Definition occurrences (x : str) (xs : list str) : nat :=
  count_if (str_eqb x) xs.

(** The elements of [xs] in the order of their first occurrence. *)
Definition first_occurrences (xs : list str) : list str :=
  fold_left (fun seen x => if has_label seen x then seen else seen ++ [x]) xs [].

(** The permalinks of the comments to which [detect] gives [label], in the
    order of the comments. *)
Definition cited_by (detect : str -> list str) (comments : list Comment)
    (label : str) : list str :=
  map comment_permalink
    (filter (fun c => has_label (detect (body c)) label) comments).

(** [d] holds, under distinct keys, the number of occurrences in [xs] of
    every string that occurs in [xs], and nothing else. *)
Definition tallies (d : list (str * nat)) (xs : list str) : Prop :=
  NoDup (map fst d)
  /\ forall k,
       lookup k d =
       match occurrences k xs with 0 => None | S n => Some (S n) end.

(** [d] holds, under distinct labels, the citations of every label that a
    comment of [cs] was given, and no other label. *)
Definition cites (detect : str -> list str) (d : list (str * list str))
    (cs : list Comment) : Prop :=
  NoDup (map fst d)
  /\ forall label,
       lookup label d =
       match cited_by detect cs label with
       | [] => None
       | url :: urls => Some (url :: urls)
       end.

(** The entries of a tally that have the count [n]. *)
Definition with_count (n : nat) (tally : list (str * nat)) : list (str * nat) :=
  filter (fun entry => snd entry =? n) tally.

(** The account of scenario B with a submission added. *)
Definition scenario_B_poster_reddit : Reddit := fun _ =>
  {| user_comments_new := fun _ => Ok scenario_B_comments;
     user_submissions_new := fun _ =>
       Ok [ {| title := lit "Why is my game so slow? Any advice?";
               submission_subreddit := lit "gaming";
               submission_permalink := lit "/r/gaming/comments/3/" |} ];
     user_created_utc := Ok 1500000000%Q;
     user_comment_karma := Ok 7%Z;
     user_link_karma := Ok 70%Z |}.

(** A report that was not made by [generate_persona]: its style is the
    result for no text. *)
Definition no_text_persona : Console.Persona plain_clock :=
  {| Console.Username := lit "u/nobody";
     Console.Account_Age := lit "1970-01-01 00:00:00";
     Console.Writing_Style := Console.no_text;
     Console.Preferred_Subreddits := [];
     Console.Interests_Hobbies := [];
     Console.Personality_Traits := [];
     Console.Activity_Summary :=
       {| Console.Total_Comments := 0;
          Console.Total_Posts := 0;
          Console.Comment_Karma := 0%Z;
          Console.Post_Karma := 0%Z;
          Console.First_Seen := inr (lit "N/A") |};
     Console.Citations_ := {| Console.Comments := []; Console.Posts := [] |} |}.

(** * Properties *)

(** ** Strings *)

Lemma startswith_prefix (s p : str) :
  startswith s p = true <-> exists after, s = p ++ after.
Proof.
  revert s. induction p as [|a p IH]; intros s; simpl.
  - split; [intros _; now exists s | reflexivity].
  - destruct s as [|b s].
    + split; [discriminate | intros [after H]; discriminate H].
    + rewrite andb_true_iff, N.eqb_eq, IH. split.
      * intros [-> [after ->]]. now exists after.
      * intros [after [= -> ->]]. split; [reflexivity | now exists after].
Qed.

(** [sub in s] holds exactly when [sub] is a substring of [s]. *)
Lemma contains_substring (sub s : str) :
  contains sub s = true <-> substring sub s.
Proof.
  unfold substring. induction s as [|c s IH].
  - simpl. rewrite orb_false_r, startswith_prefix. split.
    + intros [after H]. now exists [], after.
    + intros [before [after H]]. symmetry in H.
      apply app_eq_nil in H. destruct H as [-> H].
      apply app_eq_nil in H. destruct H as [-> ->]. now exists [].
  - simpl contains. rewrite orb_true_iff, startswith_prefix, IH. split.
    + intros [[after H] | [before [after H]]].
      * now exists [], after.
      * exists (c :: before), after. simpl. now rewrite H.
    + intros [[|b before] [after H]].
      * left. now exists after.
      * right. injection H as -> H. now exists before, after.
Qed.

(** The tokens of [split] are not empty and hold no white space, and they
    are the text without its white space, cut into pieces. *)
Lemma split_from_tokens (space : N -> bool) (s cur : str) :
  Forall (fun c => space c = false) cur ->
  Forall (fun token => token <> [] /\ Forall (fun c => space c = false) token)
    (split_from space cur s).
Proof.
  revert cur. induction s as [|c s IH]; intros cur Hcur; simpl.
  - destruct cur as [|a cur]; constructor; [|constructor].
    split; [|now apply Forall_rev].
    intros H. apply (f_equal (@List.length N)) in H.
    rewrite length_rev in H. discriminate H.
  - destruct (space c) eqn:Hc.
    + destruct cur as [|a cur]; [now apply IH|].
      constructor; [|now apply IH]. split; [|now apply Forall_rev].
      intros H. apply (f_equal (@List.length N)) in H.
      rewrite length_rev in H. discriminate H.
    + apply IH. now constructor.
Qed.

Lemma split_from_concat (space : N -> bool) (s cur : str) :
  List.concat (split_from space cur s)
  = rev cur ++ filter (fun c => negb (space c)) s.
Proof.
  revert cur. induction s as [|c s IH]; intros cur; simpl.
  - destruct cur; simpl; now rewrite ?app_nil_r.
  - destruct (space c) eqn:Hc; simpl.
    + destruct cur as [|a cur]; [apply IH|].
      simpl List.concat. now rewrite IH.
    + rewrite IH. simpl. now rewrite <- app_assoc.
Qed.

(** ** The text normalizer *)

Lemma str_eqb_eq (a b : str) : str_eqb a b = true <-> a = b.
Proof.
  revert b. induction a as [|x a IH]; intros [|y b]; simpl;
    try (split; [discriminate | congruence]); [tauto|].
  rewrite andb_true_iff, N.eqb_eq, IH. split; [intros [-> ->] | intros [= -> ->]]; auto.
Qed.

Lemma str_eqb_refl (a : str) : str_eqb a a = true.
Proof. now apply str_eqb_eq. Qed.

Ltac char_cases :=
  unfold Char.to_lower_full, Char.isalnum, Char.isspace, Char.word_char,
    Char.not_word_not_space, Char.ascii_punctuation, Char.ascii_upper,
    Char.ascii_lower, Char.ascii_digit, Char.is_ascii, Char.between,
    Char.underscore, Char.capital_sigma, Char.small_sigma,
    Char.final_small_sigma in *;
  repeat match goal with
         | |- context [(?a <=? ?b)%N] => destruct (N.leb_spec a b)
         | |- context [(?a <? ?b)%N] => destruct (N.ltb_spec a b)
         | |- context [(?a =? ?b)%N] => destruct (N.eqb_spec a b)
         | H : context [(?a <=? ?b)%N] |- _ => destruct (N.leb_spec a b)
         | H : context [(?a <? ?b)%N] |- _ => destruct (N.ltb_spec a b)
         | H : context [(?a =? ?b)%N] |- _ => destruct (N.eqb_spec a b)
         end;
  simpl in *.

Lemma sigma_db_stable : CaseStable sigma_db.
Proof.
  split.
  - intros c d. unfold Char.to_lower_full at 1.
    destruct (Char.is_ascii c) eqn:Hc.
    + intros [<- | []]. revert Hc. char_cases; intros; f_equal; try lia; discriminate.
    + simpl. destruct (N.eqb_spec c Char.capital_sigma).
      * intros [<- | []]. reflexivity.
      * intros [<- | []]. unfold Char.to_lower_full. rewrite Hc. simpl.
        destruct (N.eqb_spec c Char.capital_sigma); congruence.
  - reflexivity.
  - reflexivity.
Qed.

Section Normalizer.
Variable U : UnicodeData.

Lemma re_sub_class_delete (cls : N -> bool) (s : str) :
  re_sub_class cls [] s = filter (fun c => negb (cls c)) s.
Proof.
  induction s as [|c s IH]; simpl; [reflexivity|].
  destruct (cls c); simpl; now rewrite IH.
Qed.

Lemma clean_text_filter (s : str) :
  Console._clean_text U s = filter (kept U) (lower U s).
Proof.
  unfold Console._clean_text. rewrite re_sub_class_delete.
  apply filter_ext. intros c. unfold Char.not_word_not_space, kept, Char.word_char.
  now rewrite negb_involutive.
Qed.

Lemma lower_from_fixed (s before : str) :
  Forall (fixed U) s -> lower_from U before s = s.
Proof.
  revert before. induction s as [|c s IH]; intros before Hs; [reflexivity|].
  inversion Hs as [|? ? [Hne Hc] Hs']; subst. simpl.
  destruct (N.eqb_spec c Char.capital_sigma); [contradiction|].
  rewrite Hc, IH by assumption. reflexivity.
Qed.

Hypothesis stable : CaseStable U.

Lemma lowered_fixed (c d : N) :
  In d (Char.to_lower_full U c) -> fixed U d.
Proof.
  intros Hd. pose proof (lower_of_lower stable _ _ Hd) as Hfix.
  split; [|exact Hfix].
  intros ->. rewrite (lower_of_capital_sigma stable) in Hfix.
  discriminate.
Qed.

Lemma small_sigma_fixed : fixed U Char.small_sigma.
Proof.
  apply (lowered_fixed Char.capital_sigma).
  rewrite (lower_of_capital_sigma stable). now left.
Qed.

Lemma final_small_sigma_fixed : fixed U Char.final_small_sigma.
Proof.
  split; [discriminate | apply (lower_of_final_sigma stable)].
Qed.

Lemma lower_from_all_fixed (s before : str) :
  Forall (fixed U) (lower_from U before s).
Proof.
  revert before. induction s as [|c s IH]; intros before; simpl; [constructor|].
  apply Forall_app. split; [|apply IH].
  destruct (N.eqb_spec c Char.capital_sigma).
  - constructor; [|constructor].
    destruct (final_sigma U before s);
      [apply final_small_sigma_fixed | apply small_sigma_fixed].
  - apply Forall_forall. intros d. apply lowered_fixed.
Qed.

Lemma clean_text_all_fixed (s : str) :
  Forall (fixed U) (Console._clean_text U s).
Proof.
  rewrite clean_text_filter. apply Forall_forall. intros d Hd.
  apply filter_In in Hd. destruct Hd as [Hd _].
  revert d Hd. apply Forall_forall, lower_from_all_fixed.
Qed.

Lemma lower_clean_text (s : str) :
  lower U (Console._clean_text U s) = Console._clean_text U s.
Proof. apply lower_from_fixed, clean_text_all_fixed. Qed.

Lemma filter_twice (A : Type) (p : A -> bool) (l : list A) :
  filter p (filter p l) = filter p l.
Proof.
  induction l as [|a l IH]; simpl; [reflexivity|].
  destruct (p a) eqn:Hp; simpl; [rewrite Hp, IH|]; auto.
Qed.

Lemma clean_text_twice (s : str) :
  Console._clean_text U (Console._clean_text U s) = Console._clean_text U s.
Proof.
  rewrite (clean_text_filter (Console._clean_text U s)), lower_clean_text.
  rewrite clean_text_filter. apply filter_twice.
Qed.
End Normalizer.

(** The underscore is a word character, so it stays. *)
Lemma clean_text_snake_case (U : UnicodeData) :
  Console._clean_text U (lit "a_b") = lit "a_b".
Proof. reflexivity. Qed.

(** The final sigma rule of [str.lower]: a capital sigma after a cased letter
    and at the end of the text becomes the final small sigma, elsewhere the
    small sigma. *)
Example lower_sigma :
  lower sigma_db [65; 0x3A3; 33; 0x3A3; 66]%N = [97; 0x3C2; 33; 0x3C3; 98]%N.
Proof. reflexivity. Qed.

(** With an apostrophe, which is case-ignorable, between the letters. *)
Example lower_sigma_apostrophe :
  lower sigma_db [65; 39; 0x3A3]%N = [97; 39; 0x3C2]%N
  /\ lower sigma_db [65; 0x3A3; 39; 66]%N = [97; 0x3C3; 39; 98]%N
  /\ lower sigma_db [0x3A3]%N = [0x3C3]%N.
Proof. repeat split. Qed.

(** The hypothesis on the database cannot be dropped: over a database whose
    lowercase mapping is not stable the normalizer is not idempotent. *)
Remark idempotence_needs_stability :
  Console._clean_text unstable_db (Console._clean_text unstable_db [0x100]%N)
  <> Console._clean_text unstable_db [0x100]%N.
Proof. discriminate. Qed.

(** C4, as it is stated, fails.  The text "a_b" is returned as it is, and its
    underscore is neither alphanumeric nor white space, and it is a
    punctuation character.  So for no character database are all the
    characters that are neither alphanumeric nor white space removed, and for
    none is the result free of punctuation. *)
Lemma clean_text_keeps_underscore :
  (~ exists U, forall s c,
       In c (Console._clean_text U s) ->
       Char.isalnum U c = true \/ Char.isspace U c = true)
  /\ (~ exists U, forall s c,
       In c (Console._clean_text U s) -> Char.ascii_punctuation c = false).
Proof.
  assert (Hin : forall U, In Char.underscore (Console._clean_text U (lit "a_b"))).
  { intros U. rewrite clean_text_snake_case. simpl. tauto. }
  split; intros [U H]; specialize (H _ _ (Hin U)).
  - destruct H as [H | H]; discriminate H.
  - discriminate H.
Qed.

(** C4, amended.  For every string the normalizer (in both programs) returns
    the lowercase copy of the text from which exactly the characters were
    removed that are neither alphanumeric, nor the underscore, nor white
    space.  So every character of the result is alphanumeric, an underscore or
    white space, the underscore is its only ASCII punctuation, lowercasing the
    result changes nothing, no ASCII capital is in it, and the empty string
    is mapped to the empty string. *)
Theorem clean_text_lowercase_word_chars
    (U : UnicodeData) (stable : CaseStable U) (s : str) :
  let out := Console._clean_text U s in
  out = filter (kept U) (lower U s)
  /\ Dashboard.clean_text U s = out
  /\ (forall c, In c out ->
        Char.isalnum U c = true \/ c = Char.underscore \/ Char.isspace U c = true)
  /\ (forall c, In c out -> Char.ascii_punctuation c = true -> c = Char.underscore)
  /\ lower U out = out
  /\ (forall c, In c out -> Char.ascii_upper c = false)
  /\ Console._clean_text U [] = [].
Proof.
  assert (Hkept : forall c, In c (Console._clean_text U s) -> kept U c = true).
  { intros c. rewrite clean_text_filter. intros Hc.
    now apply filter_In in Hc. }
  cbv zeta. repeat split.
  - apply clean_text_filter.
  - intros c Hc. apply Hkept in Hc. unfold kept in Hc.
    apply orb_true_iff in Hc. destruct Hc as [Hc | Hc]; [|now right; right].
    apply orb_true_iff in Hc. destruct Hc as [Hc | Hc]; [now left|].
    right; left. now apply N.eqb_eq.
  - intros c Hc Hp. apply Hkept in Hc.
    unfold kept, Char.isalnum, Char.isspace, Char.is_ascii in Hc.
    unfold Char.ascii_punctuation in Hp. unfold Char.underscore in *.
    destruct (N.ltb_spec c 128) as [Hlt | Hge].
    + unfold Char.ascii_digit, Char.ascii_upper, Char.ascii_lower,
        Char.between in *.
      repeat rewrite ?orb_true_iff, ?andb_true_iff, ?N.leb_le, ?N.eqb_eq in Hc.
      repeat rewrite ?orb_true_iff, ?andb_true_iff, ?N.leb_le in Hp.
      lia.
    + unfold Char.between in Hp.
      repeat rewrite ?orb_true_iff, ?andb_true_iff, ?N.leb_le in Hp.
      lia.
  - now apply lower_clean_text.
  - intros c Hc.
    pose proof (clean_text_all_fixed stable s) as Hall.
    rewrite Forall_forall in Hall. destruct (Hall c Hc) as [_ Hfix].
    destruct (Char.ascii_upper c) eqn:Hup; [exfalso | reflexivity].
    unfold Char.ascii_upper, Char.between in Hup.
    rewrite andb_true_iff, !N.leb_le in Hup.
    unfold Char.to_lower_full, Char.is_ascii, Char.ascii_upper, Char.between in Hfix.
    destruct (N.ltb_spec c 128); [|lia].
    destruct (N.leb_spec 65 c); [|lia].
    destruct (N.leb_spec c 90); [|lia].
    simpl in Hfix. injection Hfix. lia.
Qed.

(** The normalizer on a text with capitals, punctuation and an underscore. *)
Lemma clean_text_lowercase_word_chars_witness :
  CaseStable sigma_db
  /\ Console._clean_text sigma_db (lit "Don't PANIC_42!")
     = filter (kept sigma_db) (lower sigma_db (lit "Don't PANIC_42!"))
  /\ Console._clean_text sigma_db (lit "Don't PANIC_42!") = lit "dont panic_42".
Proof.
  split; [exact sigma_db_stable|]. split.
  - exact (proj1 (clean_text_lowercase_word_chars sigma_db_stable
                    (lit "Don't PANIC_42!"))).
  - reflexivity.
Defined.

(** C5.  The normalizer is idempotent, in both programs: normalizing a
    normalized text gives the same text, for every character database whose
    lowercase mapping is stable. *)
Theorem clean_text_idempotent
    (U : UnicodeData) (stable : CaseStable U) (s : str) :
  Console._clean_text U (Console._clean_text U s) = Console._clean_text U s
  /\ Dashboard.clean_text U (Dashboard.clean_text U s) = Dashboard.clean_text U s.
Proof.
  split; apply (clean_text_twice stable).
Qed.

(** Idempotence on a text with two capital sigmas, one of them final. *)
Lemma clean_text_idempotent_witness :
  CaseStable sigma_db
  /\ Console._clean_text sigma_db
       (Console._clean_text sigma_db [72; 0x3A3; 33; 95; 0x3A3; 46]%N)
     = Console._clean_text sigma_db [72; 0x3A3; 33; 95; 0x3A3; 46]%N.
Proof.
  split; [exact sigma_db_stable|].
  exact (proj1 (clean_text_idempotent sigma_db_stable
                  [72; 0x3A3; 33; 95; 0x3A3; 46]%N)).
Defined.

(** ** The style analyzer *)

Lemma Qgtb_true (x y : Q) : Qgtb x y = true <-> (y < x)%Q.
Proof.
  unfold Qgtb. rewrite negb_true_iff, <- not_true_iff_false, Qle_bool_iff.
  split; [apply Qnot_le_lt | apply Qlt_not_le].
Qed.

Lemma Qgtb_false (x y : Q) : Qgtb x y = false <-> (x <= y)%Q.
Proof.
  unfold Qgtb. rewrite negb_false_iff. apply Qle_bool_iff.
Qed.

Lemma truediv_nonzero (a b : nat) :
  b <> 0 ->
  exists q, truediv a b = Ok q /\ (q == Z.of_nat a # Pos.of_nat b)%Q.
Proof.
  destruct b as [|b]; [congruence|]. intros _.
  eexists. split; [reflexivity | apply Qred_correct].
Qed.

(** [analyze_writing_style] returns, it does not raise. *)
Lemma analyze_writing_style_returns (U : UnicodeData) (texts : list str) :
  exists st, Console.analyze_writing_style U texts = Ok st.
Proof.
  destruct texts as [|t texts]; [now eexists|].
  unfold Console.analyze_writing_style, Console.style_metrics.
  simpl truediv. simpl bind. now eexists.
Qed.

Lemma dashboard_analyze_writing_style_returns (U : UnicodeData) (texts : list str) :
  exists st, Dashboard.analyze_writing_style U texts = Ok st.
Proof.
  destruct texts as [|t texts]; [now eexists|].
  unfold Dashboard.analyze_writing_style, Dashboard.style_metrics.
  simpl truediv. simpl bind. now eexists.
Qed.

(** The rules of C1 are those of the console program; as a statement about
    both programs it fails on the dashboard.  There the batch with average 80
    and emoji usage 5 has no description, and its style is not "Detailed and
    analytical"; the batch with average 42 and emoji usage 4 is not "Balanced
    and thoughtful".  The difference is more than the wording of the labels:
    two batches with average 42 get different styles, "Casual/expressive" with
    emoji usage 4 and "Straightforward" with emoji usage 0, so no rule for an
    average above 40 comes before the rule on emojis; and six formal texts
    are "Straightforward", so there is no rule on the formality. *)
Lemma dashboard_style_as_stated_fails :
  (~ exists st,
       Dashboard.analyze_writing_style sigma_db emoji_batch = Ok st
       /\ (Dashboard.Description st = Some (lit "Detailed and analytical")
           \/ Dashboard.style st = Some (lit "Detailed and analytical")))
  /\ (~ exists st,
       Dashboard.analyze_writing_style sigma_db chatty_emoji_batch = Ok st
       /\ (Dashboard.Description st = Some (lit "Balanced and thoughtful")
           \/ Dashboard.style st = Some (lit "Balanced and thoughtful")))
  /\ Dashboard.analyze_writing_style sigma_db emoji_batch =
       Ok {| Dashboard.Description := None;
             Dashboard.avg_word_count := Some 80%Q;
             Dashboard.emoji_use := Some 5;
             Dashboard.formality := Some 0;
             Dashboard.style := Some (lit "Detailed/analytical") |}
  /\ Dashboard.analyze_writing_style sigma_db chatty_emoji_batch =
       Ok {| Dashboard.Description := None;
             Dashboard.avg_word_count := Some 42%Q;
             Dashboard.emoji_use := Some 4;
             Dashboard.formality := Some 0;
             Dashboard.style := Some (lit "Casual/expressive") |}
  /\ Dashboard.analyze_writing_style sigma_db chatty_plain_batch =
       Ok {| Dashboard.Description := None;
             Dashboard.avg_word_count := Some 42%Q;
             Dashboard.emoji_use := Some 0;
             Dashboard.formality := Some 0;
             Dashboard.style := Some (lit "Straightforward") |}
  /\ Dashboard.analyze_writing_style sigma_db formal_batch =
       Ok {| Dashboard.Description := None;
             Dashboard.avg_word_count := Some 1%Q;
             Dashboard.emoji_use := Some 0;
             Dashboard.formality := Some 6;
             Dashboard.style := Some (lit "Straightforward") |}.
Proof.
  split; [|split].
  - intros (st & Hrun & H). vm_compute in Hrun. injection Hrun as <-.
    destruct H as [H | H]; discriminate H.
  - intros (st & Hrun & H). vm_compute in Hrun. injection Hrun as <-.
    destruct H as [H | H]; discriminate H.
  - repeat split; vm_compute; reflexivity.
Qed.

(** C1, amended.  For a batch of texts that is not empty, each program's
    [analyze_writing_style] returns one style whose metrics are the average
    number of words, the number of texts with an emoji and the number of
    texts with a formal connective, and whose label follows the program's
    rules in their order, the first that applies.

    In the console program the label is the description: an average above 75
    gives "Detailed and analytical"; else an average above 40 gives "Balanced
    and thoughtful"; else more than 3 texts with an emoji give "Casual and
    expressive"; else more than 5 formal texts give "Formal and structured";
    else "Straightforward and concise".

    In the dashboard there is no description; the label is the style, with
    three rules: an average above 75 gives "Detailed/analytical"; else more
    than 3 texts with an emoji give "Casual/expressive"; else
    "Straightforward".

    A batch with average 80 and emoji usage 5 is "Detailed and analytical" in
    the console program and "Detailed/analytical" in the dashboard. *)
Theorem style_rules_first_match
    (U : UnicodeData) (texts : list str) (nonempty : texts <> []) :
  (exists st,
    Console.analyze_writing_style U texts = Ok st
    /\ (Console.Average_Word_Count st ==
        Z.of_nat (Console.total_words U texts) # Pos.of_nat (List.length texts))%Q
    /\ Console.Emoji_Usage st = count_if (any_in Console.emojis) texts
    /\ Console.Formality_Score st =
       count_if (fun t => any_in Console.formal_words (Console._clean_text U t)) texts
    /\ let avg := Console.Average_Word_Count st in
       let emoji := Console.Emoji_Usage st in
       let formality := Console.Formality_Score st in
       let label := Console.Description st in
       ((75 < avg)%Q -> label = lit "Detailed and analytical")
       /\ ((avg <= 75)%Q -> (40 < avg)%Q -> label = lit "Balanced and thoughtful")
       /\ ((avg <= 40)%Q -> 3 < emoji -> label = lit "Casual and expressive")
       /\ ((avg <= 40)%Q -> emoji <= 3 -> 5 < formality ->
           label = lit "Formal and structured")
       /\ ((avg <= 40)%Q -> emoji <= 3 -> formality <= 5 ->
           label = lit "Straightforward and concise")
       /\ ((avg == 80)%Q -> emoji = 5 -> label = lit "Detailed and analytical"))
  /\ (exists avg emoji formality label,
        Dashboard.analyze_writing_style U texts =
          Ok {| Dashboard.Description := None;
                Dashboard.avg_word_count := Some avg;
                Dashboard.emoji_use := Some emoji;
                Dashboard.formality := Some formality;
                Dashboard.style := Some label |}
        /\ (avg ==
            Z.of_nat (list_sum (map (fun t => List.length (split U t)) texts))
            # Pos.of_nat (List.length texts))%Q
        /\ emoji = count_if (any_in Dashboard.emojis) texts
        /\ formality =
           count_if
             (fun t => any_in [lit "however"; lit "therefore"]
                         (Dashboard.clean_text U t)) texts
        /\ ((75 < avg)%Q -> label = lit "Detailed/analytical")
        /\ ((avg <= 75)%Q -> 3 < emoji -> label = lit "Casual/expressive")
        /\ ((avg <= 75)%Q -> emoji <= 3 -> label = lit "Straightforward")
        /\ ((avg == 80)%Q -> emoji = 5 -> label = lit "Detailed/analytical")).
Proof.
  destruct texts as [|t texts]; [congruence|]. clear nonempty. split.
  - unfold Console.analyze_writing_style, Console.style_metrics.
    destruct (truediv_nonzero (Console.total_words U (t :: texts))
                (b := List.length (t :: texts))) as [avg [-> Havg]];
      [discriminate|].
    cbn [bind]. eexists. split; [reflexivity|].
    cbn [Console.Average_Word_Count Console.Emoji_Usage Console.Formality_Score
         Console.Description].
    split; [exact Havg|]. split; [reflexivity|]. split; [reflexivity|].
    set (emoji := count_if (any_in Console.emojis) (t :: texts)).
    set (formality := count_if _ (t :: texts)).
    clearbody emoji formality. clear Havg.
    destruct (Qgtb avg 75) eqn:H75;
      [apply Qgtb_true in H75 | apply Qgtb_false in H75].
    { repeat split; intros; solve [reflexivity | exfalso; lra]. }
    destruct (Qgtb avg 40) eqn:H40;
      [apply Qgtb_true in H40 | apply Qgtb_false in H40].
    { repeat split; intros; solve [reflexivity | exfalso; lra]. }
    destruct (Nat.ltb_spec 3 emoji);
      [repeat split; intros; solve [reflexivity | exfalso; lra | exfalso; lia]|].
    destruct (Nat.ltb_spec 5 formality);
      repeat split; intros; solve [reflexivity | exfalso; lra | exfalso; lia].
  - unfold Dashboard.analyze_writing_style, Dashboard.style_metrics.
    destruct (truediv_nonzero
                (list_sum (map (fun t => List.length (split U t)) (t :: texts)))
                (b := List.length (t :: texts))) as [avg [-> Havg]];
      [discriminate|].
    cbn [bind]. do 4 eexists. split; [reflexivity|].
    split; [exact Havg|]. split; [reflexivity|]. split; [reflexivity|].
    set (emoji := count_if (any_in Dashboard.emojis) (t :: texts)).
    clearbody emoji. clear Havg.
    destruct (Qgtb avg 75) eqn:H75;
      [apply Qgtb_true in H75 | apply Qgtb_false in H75].
    { repeat split; intros; solve [reflexivity | exfalso; lra]. }
    destruct (Nat.ltb_spec 3 emoji);
      repeat split; intros; solve [reflexivity | exfalso; lra | exfalso; lia].
Qed.

(** A batch with average 80 and emoji usage 5, in both programs. *)
Lemma style_rules_first_match_witness :
  emoji_batch <> []
  /\ (exists st,
       Console.analyze_writing_style sigma_db emoji_batch = Ok st
       /\ (Console.Average_Word_Count st == 80)%Q
       /\ Console.Emoji_Usage st = 5
       /\ Console.Description st = lit "Detailed and analytical")
  /\ (exists st avg,
       Dashboard.analyze_writing_style sigma_db emoji_batch = Ok st
       /\ Dashboard.avg_word_count st = Some avg
       /\ (avg == 80)%Q
       /\ Dashboard.emoji_use st = Some 5
       /\ Dashboard.style st = Some (lit "Detailed/analytical")).
Proof.
  split; [discriminate|].
  destruct (style_rules_first_match sigma_db (texts := emoji_batch))
    as [(st & Hst & Havg & Hemoji & _ & _ & _ & _ & _ & _ & Hrule)
        (avg & emoji & formality & label & Hrun & Havg' & Hemoji'
           & _ & _ & _ & _ & Hrule')];
    [discriminate|].
  assert (Hwords : Console.total_words sigma_db emoji_batch = 400)
    by (vm_compute; reflexivity).
  split.
  - rewrite Hwords in Havg.
    assert (Havg80 : (Console.Average_Word_Count st == 80)%Q)
      by (rewrite Havg; reflexivity).
    assert (Hemoji5 : Console.Emoji_Usage st = 5)
      by (rewrite Hemoji; vm_compute; reflexivity).
    exists st. repeat split; auto.
  - change (list_sum
              (map (fun t => List.length (split sigma_db t)) emoji_batch))
      with (Console.total_words sigma_db emoji_batch) in Havg'.
    rewrite Hwords in Havg'.
    assert (Havg80 : (avg == 80)%Q) by (rewrite Havg'; reflexivity).
    assert (Hemoji5 : emoji = 5) by (rewrite Hemoji'; vm_compute; reflexivity).
    eexists. exists avg. split; [exact Hrun|].
    cbn [Dashboard.avg_word_count Dashboard.emoji_use Dashboard.style].
    split; [reflexivity|]. split; [exact Havg80|].
    split; [now rewrite Hemoji5|]. now rewrite (Hrule' Havg80 Hemoji5).
Defined.

(** The dashboard orders its rules in the same way, with two rules and labels
    of its own: an average above 75 gives "Detailed/analytical"; else more
    than 3 texts with an emoji give "Casual/expressive"; else
    "Straightforward". *)
Lemma dashboard_style_rules (U : UnicodeData) (t : str) (texts : list str) :
  exists avg emoji formal label,
    Dashboard.analyze_writing_style U (t :: texts) =
      Ok {| Dashboard.Description := None;
            Dashboard.avg_word_count := Some avg;
            Dashboard.emoji_use := Some emoji;
            Dashboard.formality := Some formal;
            Dashboard.style := Some label |}
    /\ emoji = count_if (any_in Dashboard.emojis) (t :: texts)
    /\ ((75 < avg)%Q -> label = lit "Detailed/analytical")
    /\ ((avg <= 75)%Q -> 3 < emoji -> label = lit "Casual/expressive")
    /\ ((avg <= 75)%Q -> emoji <= 3 -> label = lit "Straightforward").
Proof.
  unfold Dashboard.analyze_writing_style, Dashboard.style_metrics.
  simpl truediv. cbn [bind]. do 4 eexists. split; [reflexivity|].
  split; [reflexivity|].
  match goal with |- context [Qgtb ?q _] => generalize q end. intros avg.
  destruct (Qgtb avg 75) eqn:H75;
    [apply Qgtb_true in H75 | apply Qgtb_false in H75].
  { repeat split; intros; solve [reflexivity | exfalso; lra]. }
  match goal with |- context [3 <? ?e] => destruct (Nat.ltb_spec 3 e) end;
    repeat split; intros; solve [reflexivity | exfalso; lra | exfalso; lia].
Qed.

(** C6.  On the empty sequence [analyze_writing_style] returns the result for
    no text: the description "No text available", in the console program with
    the three metrics at zero and the readability "N/A", in the dashboard with
    no metric at all.  The value is not one of the computation of the
    metrics: that computation divides by the number of texts and raises on
    the empty sequence, and whenever it returns, its result has the
    frequencies (the style, in the dashboard) that the result for no text
    lacks. *)
Theorem empty_batch_no_text (U : UnicodeData) :
  Console.analyze_writing_style U [] =
    Ok {| Console.Description := lit "No text available";
          Console.Average_Word_Count := 0%Q;
          Console.Emoji_Usage := 0;
          Console.Formality_Score := 0;
          Console.Readability := Some (lit "N/A");
          Console.Question_Frequency := None;
          Console.Exclamation_Frequency := None |}
  /\ Console.style_metrics U [] = Raise (lit "division by zero")
  /\ (forall texts st,
        Console.style_metrics U texts = Ok st ->
        Console.Question_Frequency st <> None
        /\ Console.Exclamation_Frequency st <> None
        /\ Console.Description st <> lit "No text available")
  /\ Dashboard.analyze_writing_style U [] =
       Ok {| Dashboard.Description := Some (lit "No text available");
             Dashboard.avg_word_count := None;
             Dashboard.emoji_use := None;
             Dashboard.formality := None;
             Dashboard.style := None |}
  /\ Dashboard.style_metrics U [] = Raise (lit "division by zero")
  /\ (forall texts st,
        Dashboard.style_metrics U texts = Ok st ->
        Dashboard.style st <> None /\ Dashboard.Description st = None).
Proof.
  split; [reflexivity|]. split; [reflexivity|]. split.
  { intros texts st. unfold Console.style_metrics.
    destruct (truediv _ _) as [avg|msg]; cbn [bind]; [|discriminate].
    intros Hst. injection Hst as <-.
    cbn [Console.Question_Frequency Console.Exclamation_Frequency
         Console.Description].
    repeat split; try discriminate.
    destruct (Qgtb avg 75); [discriminate|].
    destruct (Qgtb avg 40); [discriminate|].
    destruct (3 <? _); [discriminate|].
    destruct (5 <? _); discriminate. }
  split; [reflexivity|]. split; [reflexivity|].
  intros texts st. unfold Dashboard.style_metrics.
  destruct (truediv _ _) as [avg|msg]; cbn [bind]; [|discriminate].
  intros Hst. injection Hst as <-. split; [discriminate | reflexivity].
Qed.

(** ** The classifiers *)

Section Classifiers.
Variable text : str.

(** The loop that appends the label of every entry that passes a test. *)
Lemma append_labels (p : str * list str -> bool)
    (table : list (str * list str)) (acc : list str) :
  fold_left
    (fun labels entry =>
       let '(category, keywords) := entry in
       if p (category, keywords) then labels ++ [category] else labels)
    table acc
  = acc ++ map fst (filter p table).
Proof.
  revert acc. induction table as [|[category keywords] table IH]; intros acc.
  - simpl. now rewrite app_nil_r.
  - simpl. rewrite IH. destruct (p (category, keywords)); simpl; [|reflexivity].
    now rewrite <- app_assoc.
Qed.

Lemma labels_matched (table : list (str * list str)) (label : str) :
  In label (map fst (filter (fun entry => any_in (snd entry) text) table))
  <-> matched table text label.
Proof.
  unfold matched, any_in. rewrite in_map_iff. split.
  - intros [[l keywords] [<- Hin]]. apply filter_In in Hin.
    destruct Hin as [Hin Hany]. apply existsb_exists in Hany.
    destruct Hany as [keyword [Hk Hc]]. apply contains_substring in Hc.
    now exists keywords, keyword.
  - intros (keywords & keyword & Hin & Hk & Hc).
    exists (label, keywords). split; [reflexivity|].
    apply filter_In. split; [assumption|].
    apply existsb_exists. exists keyword. now rewrite contains_substring.
Qed.

Lemma labels_nodup (p : str * list str -> bool) (table : list (str * list str)) :
  NoDup (map fst table) -> NoDup (map fst (filter p table)).
Proof.
  induction table as [|entry table IH]; simpl; intros Hnd; [constructor|].
  inversion Hnd as [|? ? Hnotin Hnd']; subst.
  destruct (p entry); simpl; [|now apply IH].
  constructor; [|now apply IH].
  intros Hin. apply Hnotin. apply in_map_iff in Hin.
  destruct Hin as [e [He Hin]]. apply filter_In in Hin.
  apply in_map_iff. exists e. tauto.
Qed.
End Classifiers.

Lemma distinct_nodup (l : list str) : distinct l = true -> NoDup l.
Proof.
  induction l as [|x l IH]; simpl; [constructor|].
  rewrite andb_true_iff, negb_true_iff. intros [Hx Hl].
  constructor; [|now apply IH].
  intros Hin. apply not_true_iff_false in Hx. apply Hx.
  apply existsb_exists. exists x. split; [assumption | apply str_eqb_refl].
Qed.

Lemma detect_interests_filter (U : UnicodeData) (text : str) :
  Console.detect_interests U text =
  map fst (filter (fun entry => any_in (snd entry) (Console._clean_text U text))
             Console.interest_keywords).
Proof.
  unfold Console.detect_interests.
  exact (append_labels (fun entry => any_in (snd entry) (Console._clean_text U text))
           Console.interest_keywords []).
Qed.

Lemma detect_personality_traits_filter (U : UnicodeData) (text : str) :
  Console.detect_personality_traits U text =
  map fst (filter (fun entry => any_in (snd entry) (Console._clean_text U text))
             trait_keywords).
Proof.
  unfold Console.detect_personality_traits, trait_keywords.
  cbn [filter snd].
  repeat match goal with |- context [any_in ?k ?t] => destruct (any_in k t) end;
    reflexivity.
Qed.

(** C7.  Each classifier of the console program returns exactly the labels
    that have a keyword occurring in the normalized text, each once: a label
    is in the result if and only if one of its keywords is a substring of the
    normalized text.  So a text with no keyword gets no label, and a text with
    keywords of two labels gets both. *)
Theorem classifiers_emit_matched_labels (U : UnicodeData) (text : str) :
  let normalized := Console._clean_text U text in
  let interests := Console.detect_interests U text in
  let traits := Console.detect_personality_traits U text in
  (forall label,
     In label interests <-> matched Console.interest_keywords normalized label)
  /\ (forall label, In label traits <-> matched trait_keywords normalized label)
  /\ NoDup interests
  /\ NoDup traits
  /\ ((forall label, ~ matched Console.interest_keywords normalized label) ->
      interests = [])
  /\ ((forall label, ~ matched trait_keywords normalized label) -> traits = [])
  /\ (forall a b,
        matched Console.interest_keywords normalized a ->
        matched Console.interest_keywords normalized b ->
        In a interests /\ In b interests)
  /\ (forall a b,
        matched trait_keywords normalized a ->
        matched trait_keywords normalized b ->
        In a traits /\ In b traits).
Proof.
  cbv zeta.
  assert (Hi : forall label,
             In label (Console.detect_interests U text) <->
             matched Console.interest_keywords (Console._clean_text U text) label).
  { intros label. rewrite detect_interests_filter. apply labels_matched. }
  assert (Ht : forall label,
             In label (Console.detect_personality_traits U text) <->
             matched trait_keywords (Console._clean_text U text) label).
  { intros label. rewrite detect_personality_traits_filter. apply labels_matched. }
  assert (Hempty : forall l : list str, (forall x, ~ In x l) -> l = []).
  { intros [|x l] H; [reflexivity|]. exfalso. apply (H x). now left. }
  split; [exact Hi|]. split; [exact Ht|]. split.
  { rewrite detect_interests_filter. apply labels_nodup.
    apply distinct_nodup. reflexivity. }
  split.
  { rewrite detect_personality_traits_filter. apply labels_nodup.
    apply distinct_nodup. reflexivity. }
  split.
  { intros Hnone. apply Hempty. intros x Hx. apply (Hnone x), Hi, Hx. }
  split.
  { intros Hnone. apply Hempty. intros x Hx. apply (Hnone x), Ht, Hx. }
  split; intros a b Ha Hb; split; (apply Hi || apply Ht); assumption.
Qed.

(** A text without any keyword, and a text with keywords of two categories. *)
Example detect_interests_none (U : UnicodeData) :
  Console.detect_interests U (lit "Nothing to see here.") = [].
Proof. reflexivity. Qed.

Example detect_interests_two (U : UnicodeData) :
  Console.detect_interests U (lit "My Xbox runs Linux!")
  = [lit "Technology"; lit "Gaming"].
Proof. reflexivity. Qed.

Example detect_personality_traits_two (U : UnicodeData) :
  Console.detect_personality_traits U (lit "I think Python is great, however it's slow")
  = [lit "Opinionated"; lit "Curious"].
Proof. reflexivity. Qed.

(** ** The aggregator *)

Section Runs.
Variable U : UnicodeData.
Variable D : DatetimeLib.
Variable list_of_set : list str -> list str.
Variable reddit : Reddit.
Variable username : str.

(** The report of the console program when every read returns. *)
Lemma generate_persona_report
    (cs : list Comment) (ps : list Submission) (created : Q) (ck lk : Z) :
  user_comments_new (reddit username) 100 = Ok cs ->
  user_submissions_new (reddit username) 100 = Ok ps ->
  map body cs ++ map title ps <> [] ->
  user_created_utc (reddit username) = Ok created ->
  user_comment_karma (reddit username) = Ok ck ->
  user_link_karma (reddit username) = Ok lk ->
  exists st,
    Console.analyze_writing_style U (map body cs ++ map title ps) = Ok st
    /\ Console.generate_persona U D reddit username =
       let tally := fold_left (Console.analyze_comment U) cs ([], [], []) in
       Console.Report
         {| Console.Username := lit "u/" ++ username;
            Console.Account_Age := datetime_str D (fromtimestamp D created);
            Console.Writing_Style := st;
            Console.Preferred_Subreddits := fst (fst tally);
            Console.Interests_Hobbies := snd (fst tally);
            Console.Personality_Traits := snd tally;
            Console.Activity_Summary :=
              {| Console.Total_Comments := List.length cs;
                 Console.Total_Posts := List.length ps;
                 Console.Comment_Karma := ck;
                 Console.Post_Karma := lk;
                 Console.First_Seen := Console.first_seen D cs |};
            Console.Citations_ :=
              {| Console.Comments := map comment_permalink (firstn 3 cs);
                 Console.Posts := map submission_permalink (firstn 3 ps) |} |}.
Proof.
  intros Hcs Hps Hne Hcreated Hck Hlk.
  destruct (analyze_writing_style_returns U (map body cs ++ map title ps))
    as [st Hst].
  exists st. split; [exact Hst|].
  unfold Console.generate_persona, Console.generate_persona_try.
  rewrite Hcs, Hps. cbn [bind].
  destruct cs as [|c cs]; [destruct ps as [|p ps]; [now elim Hne|]|];
    rewrite Hcreated; cbn [bind]; rewrite Hst; cbn [bind];
    rewrite Hck, Hlk; cbn [bind]; cbv zeta;
    destruct (fold_left _ _ _) as [[subs ints] trs]; reflexivity.
Qed.

(** A report of the console program is built after all five reads
    returned. *)
Lemma console_report_reads (persona : Console.Persona D) :
  Console.generate_persona U D reddit username = Console.Report persona ->
  exists cs ps created ck lk,
    user_comments_new (reddit username) 100 = Ok cs
    /\ user_submissions_new (reddit username) 100 = Ok ps
    /\ map body cs ++ map title ps <> []
    /\ user_created_utc (reddit username) = Ok created
    /\ user_comment_karma (reddit username) = Ok ck
    /\ user_link_karma (reddit username) = Ok lk.
Proof.
  unfold Console.generate_persona, Console.generate_persona_try.
  destruct (user_comments_new _ _) as [cs|]; cbn [bind]; [|discriminate].
  destruct (user_submissions_new _ _) as [ps|]; cbn [bind]; [|discriminate].
  destruct cs as [|c cs]; [destruct ps as [|p ps]; [discriminate|]|];
    (destruct (user_created_utc _) as [created|]; cbn [bind]; [|discriminate]);
    (destruct (Console.analyze_writing_style _ _) as [st|]; cbn [bind];
       [|discriminate]);
    (destruct (user_comment_karma _) as [ck|]; cbn [bind]; [|discriminate]);
    (destruct (user_link_karma _) as [lk|]; cbn [bind]; [|discriminate]);
    intros _; do 5 eexists; repeat split; discriminate.
Qed.


(** A report of the dashboard is built after all five reads returned. *)
Lemma dashboard_report_reads (persona : Dashboard.Persona) :
  Dashboard.generate_persona U D list_of_set reddit username =
    Dashboard.Report persona ->
  exists cs ps created ck lk,
    user_comments_new (reddit username) 100 = Ok cs
    /\ user_submissions_new (reddit username) 100 = Ok ps
    /\ map body cs ++ map title ps <> []
    /\ user_created_utc (reddit username) = Ok created
    /\ user_comment_karma (reddit username) = Ok ck
    /\ user_link_karma (reddit username) = Ok lk.
Proof.
  unfold Dashboard.generate_persona, Dashboard.generate_persona_try.
  destruct (user_comments_new _ _) as [cs|]; cbn [bind]; [|discriminate].
  destruct (user_submissions_new _ _) as [ps|]; cbn [bind]; [|discriminate].
  destruct cs as [|c cs]; [destruct ps as [|p ps]; [discriminate|]|];
    (destruct (user_created_utc _) as [created|]; cbn [bind]; [|discriminate]);
    (destruct (user_link_karma _) as [lk|]; cbn [bind]; [|discriminate]);
    (destruct (user_comment_karma _) as [ck|]; cbn [bind]; [|discriminate]);
    (destruct (Dashboard.analyze_writing_style _ _) as [st|]; cbn [bind];
       [|discriminate]);
    intros _; do 5 eexists; repeat split; discriminate.
Qed.
End Runs.

(** C2.  When the listing of the comments and the listing of the submissions
    both return the empty list, [generate_persona] returns the dict with the
    single key ["error"] and the message "No public activity found", in both
    programs.  The metadata of the account is not read: the result is the same
    whatever the reads of the creation time and of the karma would give. *)
Theorem no_activity_error
    (U : UnicodeData) (D : DatetimeLib) (list_of_set : list str -> list str)
    (reddit : Reddit) (username : str)
    (no_comments : user_comments_new (reddit username) 100 = Ok [])
    (no_posts : user_submissions_new (reddit username) 100 = Ok []) :
  Console.generate_persona U D reddit username =
    Console.Error (lit "No public activity found")
  /\ Dashboard.generate_persona U D list_of_set reddit username =
     Dashboard.Error (lit "No public activity found")
  /\ (forall created ck lk,
        let reddit' := fun name =>
          {| user_comments_new := user_comments_new (reddit name);
             user_submissions_new := user_submissions_new (reddit name);
             user_created_utc := created;
             user_comment_karma := ck;
             user_link_karma := lk |} in
        Console.generate_persona U D reddit' username =
          Console.generate_persona U D reddit username
        /\ Dashboard.generate_persona U D list_of_set reddit' username =
           Dashboard.generate_persona U D list_of_set reddit username).
Proof.
  unfold Console.generate_persona, Console.generate_persona_try,
    Dashboard.generate_persona, Dashboard.generate_persona_try.
  cbn [user_comments_new user_submissions_new].
  rewrite no_comments, no_posts. cbn [bind]. repeat split.
Qed.

(** No activity, and every read of the metadata would raise. *)
Lemma no_activity_error_witness :
  Console.generate_persona sigma_db plain_clock silent_reddit (lit "nobody") =
    Console.Error (lit "No public activity found")
  /\ Dashboard.generate_persona sigma_db plain_clock (fun l => l) silent_reddit
       (lit "nobody") =
     Dashboard.Error (lit "No public activity found").
Proof.
  destruct (no_activity_error sigma_db plain_clock (fun l => l) silent_reddit
              (lit "nobody") eq_refl eq_refl) as (Hconsole & Hdashboard & _).
  split; [exact Hconsole | exact Hdashboard].
Defined.

(** C8.  An exception of a read of the platform ends [generate_persona] with
    the dict whose single key is ["error"] and whose value is the message of
    that exception, in both programs; nothing of what was fetched before is in
    the result.  The reads are, in their order: the comments, the
    submissions, and, when there is activity, the creation time and the two
    karma counters.  A report is returned only when all five reads
    returned. *)
Theorem source_failure_error
    (U : UnicodeData) (D : DatetimeLib) (list_of_set : list str -> list str)
    (reddit : Reddit) (username : str) :
  let user := reddit username in
  let console := Console.generate_persona U D reddit username in
  let dashboard := Dashboard.generate_persona U D list_of_set reddit username in
  (forall msg,
     user_comments_new user 100 = Raise msg ->
     console = Console.Error msg /\ dashboard = Dashboard.Error msg)
  /\ (forall cs msg,
       user_comments_new user 100 = Ok cs ->
       user_submissions_new user 100 = Raise msg ->
       console = Console.Error msg /\ dashboard = Dashboard.Error msg)
  /\ (forall cs ps msg,
       user_comments_new user 100 = Ok cs ->
       user_submissions_new user 100 = Ok ps ->
       map body cs ++ map title ps <> [] ->
       (user_created_utc user = Raise msg ->
        console = Console.Error msg /\ dashboard = Dashboard.Error msg)
       /\ (forall created,
            user_created_utc user = Ok created ->
            (user_comment_karma user = Raise msg -> console = Console.Error msg)
            /\ (forall ck,
                 user_comment_karma user = Ok ck ->
                 user_link_karma user = Raise msg -> console = Console.Error msg)
            /\ (user_link_karma user = Raise msg -> dashboard = Dashboard.Error msg)
            /\ (forall lk,
                 user_link_karma user = Ok lk ->
                 user_comment_karma user = Raise msg ->
                 dashboard = Dashboard.Error msg)))
  /\ (forall persona,
       console = Console.Report persona ->
       exists cs ps created ck lk,
         user_comments_new user 100 = Ok cs
         /\ user_submissions_new user 100 = Ok ps
         /\ map body cs ++ map title ps <> []
         /\ user_created_utc user = Ok created
         /\ user_comment_karma user = Ok ck
         /\ user_link_karma user = Ok lk)
  /\ (forall persona,
       dashboard = Dashboard.Report persona ->
       exists cs ps created ck lk,
         user_comments_new user 100 = Ok cs
         /\ user_submissions_new user 100 = Ok ps
         /\ map body cs ++ map title ps <> []
         /\ user_created_utc user = Ok created
         /\ user_comment_karma user = Ok ck
         /\ user_link_karma user = Ok lk).
Proof.
  cbv zeta.
  split; [|split; [|split; [|split]]].
  - intros msg H.
    unfold Console.generate_persona, Console.generate_persona_try,
      Dashboard.generate_persona, Dashboard.generate_persona_try.
    rewrite H. split; reflexivity.
  - intros cs msg Hcs H.
    unfold Console.generate_persona, Console.generate_persona_try,
      Dashboard.generate_persona, Dashboard.generate_persona_try.
    rewrite Hcs, H. split; reflexivity.
  - intros cs ps msg Hcs Hps Hne.
    destruct (analyze_writing_style_returns U (map body cs ++ map title ps))
      as [st Hst].
    destruct (dashboard_analyze_writing_style_returns U
                (map body cs ++ map title ps)) as [st' Hst'].
    unfold Console.generate_persona, Console.generate_persona_try,
      Dashboard.generate_persona, Dashboard.generate_persona_try.
    rewrite Hcs, Hps. cbn [bind].
    destruct cs as [|c cs]; [destruct ps as [|p ps]; [now elim Hne|]|];
      (split; [intros ->; split; reflexivity|]);
      intros created ->; cbn [bind]; rewrite Hst; cbn [bind];
      (split; [intros ->; reflexivity|]);
      (split; [intros ck -> ->; reflexivity|]);
      (split; [intros ->; reflexivity|]);
      intros lk -> ->; reflexivity.
  - apply console_report_reads.
  - apply dashboard_report_reads.
Qed.

(** The comments were fetched, the listing of the submissions raises: the
    result is the error dict with the message of the exception. *)
Lemma source_failure_error_witness :
  Console.generate_persona sigma_db plain_clock flaky_reddit (lit "someone") =
    Console.Error (lit "received 503 HTTP response")
  /\ Dashboard.generate_persona sigma_db plain_clock (fun l => l) flaky_reddit
       (lit "someone") =
     Dashboard.Error (lit "received 503 HTTP response").
Proof.
  exact (proj1 (proj2
           (source_failure_error sigma_db plain_clock (fun l => l) flaky_reddit
              (lit "someone")))
           scenario_B_comments (lit "received 503 HTTP response")
           eq_refl eq_refl).
Defined.

(** C10.  With no comment and at least one submission, and the metadata of
    the account read, [generate_persona] of the console program returns a
    report, not the error dict, and the field "First Seen" of its activity
    summary is the string "N/A". *)
Theorem posts_only_first_seen
    (U : UnicodeData) (D : DatetimeLib) (reddit : Reddit) (username : str)
    (p : Submission) (ps : list Submission) (created : Q) (ck lk : Z)
    (no_comments : user_comments_new (reddit username) 100 = Ok [])
    (posts : user_submissions_new (reddit username) 100 = Ok (p :: ps))
    (created_read : user_created_utc (reddit username) = Ok created)
    (comment_karma_read : user_comment_karma (reddit username) = Ok ck)
    (link_karma_read : user_link_karma (reddit username) = Ok lk) :
  exists persona,
    Console.generate_persona U D reddit username = Console.Report persona
    /\ Console.First_Seen (Console.Activity_Summary persona) = inr (lit "N/A")
    /\ Console.Total_Comments (Console.Activity_Summary persona) = 0
    /\ Console.Total_Posts (Console.Activity_Summary persona) = S (List.length ps).
Proof.
  destruct (@generate_persona_report U D reddit username [] (p :: ps)
              created ck lk) as [st [_ Hrun]]; try assumption; [discriminate|].
  eexists. split; [exact Hrun|]. repeat split.
Qed.

(** One submission, no comment. *)
Lemma posts_only_first_seen_witness :
  exists persona,
    Console.generate_persona sigma_db plain_clock poster_reddit (lit "poster") =
      Console.Report persona
    /\ Console.First_Seen (Console.Activity_Summary persona) = inr (lit "N/A").
Proof.
  destruct (posts_only_first_seen sigma_db plain_clock poster_reddit (lit "poster")
              (ps := []) eq_refl eq_refl eq_refl eq_refl eq_refl)
    as (persona & Hrun & Hseen & _).
  exists persona. split; [exact Hrun | exact Hseen].
Defined.

(** ** Scenario B *)

(** C3, amended.  For an account with exactly the two comments "I think
    Python is great, however it's slow" and "lol that's hilarious" and no
    submission, the report of the console program has the interest
    Technology, cited by the first comment; the traits Opinionated and
    Curious, cited by the first comment ("however" contains "how"), and
    Humorous, cited by the second; the average word count (8+3)/2 = 5.5; and
    the description "Straightforward and concise". *)
Theorem scenario_two_comments
    (U : UnicodeData) (D : DatetimeLib) (reddit : Reddit) (username : str)
    (c1 c2 : Comment) (created : Q) (ck lk : Z)
    (comments : user_comments_new (reddit username) 100 = Ok [c1; c2])
    (first : body c1 = lit "I think Python is great, however it's slow")
    (second : body c2 = lit "lol that's hilarious")
    (no_posts : user_submissions_new (reddit username) 100 = Ok [])
    (created_read : user_created_utc (reddit username) = Ok created)
    (comment_karma_read : user_comment_karma (reddit username) = Ok ck)
    (link_karma_read : user_link_karma (reddit username) = Ok lk) :
  exists persona,
    Console.generate_persona U D reddit username = Console.Report persona
    /\ Console.Interests_Hobbies persona =
       [(lit "Technology", [comment_permalink c1])]
    /\ Console.Personality_Traits persona =
       [(lit "Opinionated", [comment_permalink c1]);
        (lit "Curious", [comment_permalink c1]);
        (lit "Humorous", [comment_permalink c2])]
    /\ List.length (split U (body c1)) = 8
    /\ List.length (split U (body c2)) = 3
    /\ Console.Average_Word_Count (Console.Writing_Style persona) = (11 # 2)%Q
    /\ Console.Description (Console.Writing_Style persona) =
       lit "Straightforward and concise".
Proof.
  destruct (@generate_persona_report U D reddit username [c1; c2] []
              created ck lk) as [st [Hst Hrun]]; try assumption.
  { discriminate. }
  eexists. split; [exact Hrun|].
  cbn [map app] in Hst. rewrite first, second in Hst.
  assert (Hstyle :
            Console.analyze_writing_style U
              [lit "I think Python is great, however it's slow";
               lit "lol that's hilarious"]
            = Ok {| Console.Description := lit "Straightforward and concise";
                    Console.Average_Word_Count := (11 # 2)%Q;
                    Console.Emoji_Usage := 0;
                    Console.Formality_Score := 1;
                    Console.Readability := None;
                    Console.Question_Frequency := Some 0;
                    Console.Exclamation_Frequency := Some 0 |})
    by (vm_compute; reflexivity).
  rewrite Hstyle in Hst. injection Hst as <-.
  cbv zeta.
  cbn [Console.Interests_Hobbies Console.Personality_Traits
       Console.Writing_Style Console.Average_Word_Count Console.Description].
  cbn [fold_left Console.analyze_comment fst snd].
  rewrite first, second.
  repeat split; reflexivity.
Qed.

(** Scenario B on a concrete platform. *)
Lemma scenario_two_comments_witness :
  exists persona,
    Console.generate_persona sigma_db plain_clock scenario_B_reddit (lit "someone")
    = Console.Report persona
    /\ map fst (Console.Personality_Traits persona) =
       [lit "Opinionated"; lit "Curious"; lit "Humorous"]
    /\ Console.Average_Word_Count (Console.Writing_Style persona) = (11 # 2)%Q.
Proof.
  destruct (@scenario_two_comments sigma_db plain_clock scenario_B_reddit
              (lit "someone") _ _ _ _ _ eq_refl eq_refl eq_refl eq_refl eq_refl
              eq_refl eq_refl)
    as (persona & Hrun & _ & Htraits & _ & _ & Havg & _).
  exists persona. split; [exact Hrun|]. split; [|exact Havg].
  rewrite Htraits. reflexivity.
Defined.

(** C3, as it is stated, fails on the account of scenario B: the traits of the
    report are not Opinionated and Humorous alone, since Curious is one of
    them, and the average word count is not 6. *)
Lemma scenario_B_as_stated_fails :
  (~ exists persona,
       Console.generate_persona sigma_db plain_clock scenario_B_reddit
         (lit "someone") = Console.Report persona
       /\ forall trait,
            In trait (map fst (Console.Personality_Traits persona)) <->
            In trait [lit "Opinionated"; lit "Humorous"])
  /\ (~ exists persona,
       Console.generate_persona sigma_db plain_clock scenario_B_reddit
         (lit "someone") = Console.Report persona
       /\ (Console.Average_Word_Count (Console.Writing_Style persona) == 6)%Q).
Proof.
  split; intros (persona & Hrun & H); vm_compute in Hrun;
    injection Hrun as <-.
  - destruct (proj1 (H (lit "Curious"))) as [Heq | [Heq | []]];
      [simpl; tauto | discriminate Heq | discriminate Heq].
  - vm_compute in H. discriminate H.
Qed.

(** ** The ranking of the communities *)

Lemma insert_desc_perm (x : str * nat) (l : list (str * nat)) :
  Permutation (insert_desc x l) (x :: l).
Proof.
  induction l as [|y l IH]; simpl; [reflexivity|].
  destruct (snd y <=? snd x); [reflexivity|].
  rewrite IH. apply perm_swap.
Qed.

Lemma sorted_by_count_desc_perm (l : list (str * nat)) :
  Permutation (sorted_by_count_desc l) l.
Proof.
  induction l as [|x l IH]; simpl; [reflexivity|].
  rewrite insert_desc_perm. now constructor.
Qed.





Lemma count_if_perm (A : Type) (p : A -> bool) (l l' : list A) :
  Permutation l l' -> count_if p l = count_if p l'.
Proof.
  unfold count_if. induction 1 as [|x l l' _ IH|x y l|l l' l'' _ IH1 _ IH2];
    simpl; try destruct (p x); try destruct (p y); simpl; congruence.
Qed.



(** The tally of the console program counts the names of the subreddits of
    the comments. *)
Lemma console_tally (U : UnicodeData) (cs : list Comment) (acc : Console.Tally) :
  fst (fst (fold_left (Console.analyze_comment U) cs acc))
  = fold_left (fun d x => update_default 0 S x d) (map comment_subreddit cs)
      (fst (fst acc)).
Proof.
  revert acc. induction cs as [|c cs IH]; intros [[subs ints] trs];
    [reflexivity|].
  simpl fold_left. rewrite IH. reflexivity.
Qed.



(** * Further properties *)

(** ** Dicts filled during iteration *)

Lemma has_label_in (labels : list str) (label : str) :
  has_label labels label = true <-> In label labels.
Proof.
  unfold has_label. rewrite existsb_exists. split.
  - intros [x [Hx Heq]]. apply str_eqb_eq in Heq. now subst.
  - intros H. exists label. split; [assumption | apply str_eqb_refl].
Qed.

Lemma str_eqb_neq (a b : str) : a <> b -> str_eqb a b = false.
Proof.
  intros H. apply not_true_iff_false. now rewrite str_eqb_eq.
Qed.

Lemma lookup_none (V : Type) (k : str) (d : list (str * V)) :
  lookup k d = None <-> ~ In k (map fst d).
Proof.
  induction d as [|[k' v] d IH]; simpl; [tauto|].
  destruct (str_eqb k k') eqn:Heq.
  - apply str_eqb_eq in Heq. subst. split; [discriminate | tauto].
  - rewrite IH. split; [|tauto]. intros H [-> | Hin]; [|tauto].
    now rewrite str_eqb_refl in Heq.
Qed.

Lemma lookup_in (V : Type) (k : str) (v : V) (d : list (str * V)) :
  NoDup (map fst d) -> (In (k, v) d <-> lookup k d = Some v).
Proof.
  induction d as [|[k' v'] d IH]; simpl; intros Hnd.
  - split; [tauto | discriminate].
  - inversion Hnd as [|? ? Hnotin Hnd']; subst.
    destruct (str_eqb k k') eqn:Heq.
    + apply str_eqb_eq in Heq. subst. split.
      * intros [[= ->] | Hin]; [reflexivity|].
        exfalso. apply Hnotin. apply in_map_iff. now exists (k', v).
      * intros [= ->]. now left.
    + rewrite <- (IH Hnd'). split; [|tauto].
      intros [[= -> ->] | Hin]; [|assumption].
      now rewrite str_eqb_refl in Heq.
Qed.

Section Dicts.
Variable V : Type.
Variable dflt : V.
Variable f : V -> V.

Lemma lookup_update_same (k : str) (d : list (str * V)) :
  lookup k (update_default dflt f k d)
  = Some (f match lookup k d with Some v => v | None => dflt end).
Proof.
  induction d as [|[k' v] d IH]; simpl.
  - now rewrite str_eqb_refl.
  - destruct (str_eqb k k') eqn:Heq; simpl; rewrite Heq; [reflexivity | exact IH].
Qed.

Lemma lookup_update_other (k k' : str) (d : list (str * V)) :
  k' <> k -> lookup k' (update_default dflt f k d) = lookup k' d.
Proof.
  intros Hne. induction d as [|[k0 v] d IH]; simpl.
  - now rewrite (str_eqb_neq Hne).
  - destruct (str_eqb k k0) eqn:Heq; simpl.
    + apply str_eqb_eq in Heq. subst. now rewrite (str_eqb_neq Hne).
    + now rewrite IH.
Qed.

Lemma keys_update (k : str) (d : list (str * V)) :
  map fst (update_default dflt f k d)
  = if has_label (map fst d) k then map fst d else map fst d ++ [k].
Proof.
  induction d as [|[k' v] d IH]; simpl; [reflexivity|].
  unfold has_label in *. simpl.
  destruct (str_eqb k k') eqn:Heq; simpl; [reflexivity|].
  rewrite IH. now destruct (existsb (str_eqb k) (map fst d)).
Qed.

Lemma update_nodup (k : str) (d : list (str * V)) :
  NoDup (map fst d) -> NoDup (map fst (update_default dflt f k d)).
Proof.
  intros Hnd. rewrite keys_update.
  destruct (has_label (map fst d) k) eqn:Hk; [assumption|].
  apply NoDup_app; [assumption | repeat constructor; tauto | ].
  intros x Hx [<- | []]. apply has_label_in in Hx. congruence.
Qed.
End Dicts.

(** ** Counting *)

Lemma occurrences_app (k : str) (xs ys : list str) :
  occurrences k (xs ++ ys) = occurrences k xs + occurrences k ys.
Proof.
  unfold occurrences, count_if. now rewrite filter_app, length_app.
Qed.

Lemma tallies_step (d : list (str * nat)) (xs : list str) (x : str) :
  tallies d xs -> tallies (update_default 0 S x d) (xs ++ [x]).
Proof.
  intros [Hnd Hlook]. split; [now apply update_nodup|].
  intros k. rewrite occurrences_app. unfold occurrences at 2, count_if. simpl.
  destruct (str_eqb k x) eqn:Heq.
  - apply str_eqb_eq in Heq. subst k.
    rewrite lookup_update_same, Hlook. simpl.
    destruct (occurrences x xs); simpl; f_equal; lia.
  - rewrite lookup_update_other.
    + rewrite Hlook. simpl. now rewrite Nat.add_0_r.
    + intros ->. now rewrite str_eqb_refl in Heq.
Qed.

Lemma tallies_fold (ys xs : list str) (d : list (str * nat)) :
  tallies d xs ->
  tallies (fold_left (fun d x => update_default 0 S x d) ys d) (xs ++ ys).
Proof.
  revert xs d. induction ys as [|y ys IH]; intros xs d H; simpl.
  - now rewrite app_nil_r.
  - replace (xs ++ y :: ys) with ((xs ++ [y]) ++ ys)
      by now rewrite <- app_assoc.
    apply IH. now apply tallies_step.
Qed.

Lemma counter_tallies (xs : list str) : tallies (Dashboard.Counter xs) xs.
Proof.
  apply (tallies_fold xs (xs := []) (d := [])). split; [constructor|].
  intros k. reflexivity.
Qed.

Lemma tallies_entries (d : list (str * nat)) (xs : list str) :
  tallies d xs ->
  forall name n, In (name, n) d <-> 0 < n /\ n = occurrences name xs.
Proof.
  intros [Hnd Hlook] name n. rewrite (lookup_in name n d Hnd), Hlook.
  destruct (occurrences name xs); split.
  - discriminate.
  - intros [Hpos ->]. lia.
  - intros [= <-]. split; [lia | reflexivity].
  - intros [_ ->]. reflexivity.
Qed.

Lemma counter_sum (ys : list str) (d : list (str * nat)) :
  list_sum (map snd (fold_left (fun d x => update_default 0 S x d) ys d))
  = list_sum (map snd d) + List.length ys.
Proof.
  assert (Hstep : forall x d,
             list_sum (map snd (update_default 0 S x d))
             = S (list_sum (map snd d))).
  { intros x d0. induction d0 as [|[k v] d0 IH]; simpl; [reflexivity|].
    destruct (str_eqb x k); simpl; [reflexivity|]. rewrite IH. lia. }
  revert d. induction ys as [|y ys IH]; intros d; simpl; [lia|].
  rewrite IH, Hstep. lia.
Qed.

Lemma counter_keys (ys : list str) (d : list (str * nat)) :
  map fst (fold_left (fun d x => update_default 0 S x d) ys d)
  = fold_left (fun seen x => if has_label seen x then seen else seen ++ [x])
      ys (map fst d).
Proof.
  revert d. induction ys as [|y ys IH]; intros d; simpl; [reflexivity|].
  now rewrite IH, keys_update.
Qed.

(** ** The shape of a report *)

Lemma console_report_shape
    (U : UnicodeData) (D : DatetimeLib) (reddit : Reddit) (username : str)
    (cs : list Comment) (persona : Console.Persona D) :
  user_comments_new (reddit username) 100 = Ok cs ->
  Console.generate_persona U D reddit username = Console.Report persona ->
  exists ps st created ck lk,
    user_submissions_new (reddit username) 100 = Ok ps
    /\ map body cs ++ map title ps <> []
    /\ Console.analyze_writing_style U (map body cs ++ map title ps) = Ok st
    /\ persona =
       {| Console.Username := lit "u/" ++ username;
          Console.Account_Age := datetime_str D (fromtimestamp D created);
          Console.Writing_Style := st;
          Console.Preferred_Subreddits :=
            fst (fst (fold_left (Console.analyze_comment U) cs ([], [], [])));
          Console.Interests_Hobbies :=
            snd (fst (fold_left (Console.analyze_comment U) cs ([], [], [])));
          Console.Personality_Traits :=
            snd (fold_left (Console.analyze_comment U) cs ([], [], []));
          Console.Activity_Summary :=
            {| Console.Total_Comments := List.length cs;
               Console.Total_Posts := List.length ps;
               Console.Comment_Karma := ck;
               Console.Post_Karma := lk;
               Console.First_Seen := Console.first_seen D cs |};
          Console.Citations_ :=
            {| Console.Comments := map comment_permalink (firstn 3 cs);
               Console.Posts := map submission_permalink (firstn 3 ps) |} |}.
Proof.
  intros Hcs Hrun.
  destruct (@console_report_reads U D reddit username persona Hrun)
    as (cs' & ps & created & ck & lk & Hcs' & Hps & Hne & Hcr & Hck & Hlk).
  rewrite Hcs in Hcs'. injection Hcs' as <-.
  destruct (@generate_persona_report U D reddit username cs ps created ck lk
              Hcs Hps Hne Hcr Hck Hlk) as (st & Hst & Hrun').
  rewrite Hrun in Hrun'. cbv zeta in Hrun'. injection Hrun' as ->.
  now exists ps, st, created, ck, lk.
Qed.

Lemma dashboard_report_shape
    (U : UnicodeData) (D : DatetimeLib) (list_of_set : list str -> list str)
    (reddit : Reddit) (username : str)
    (cs : list Comment) (ps : list Submission) (persona : Dashboard.Persona) :
  user_comments_new (reddit username) 100 = Ok cs ->
  user_submissions_new (reddit username) 100 = Ok ps ->
  Dashboard.generate_persona U D list_of_set reddit username =
    Dashboard.Report persona ->
  exists st created ck lk,
    map body cs ++ map title ps <> []
    /\ Dashboard.analyze_writing_style U (map body cs ++ map title ps) = Ok st
    /\ persona =
       {| Dashboard.username := lit "u/" ++ username;
          Dashboard.account_age := strftime_Ymd D (fromtimestamp D created);
          Dashboard.post_karma := lk;
          Dashboard.comment_karma := ck;
          Dashboard.writing_style := st;
          Dashboard.interests :=
            list_of_set
              (flat_map (Dashboard.detect_interests U)
                 (map body cs ++ map title ps));
          Dashboard.traits :=
            if existsb
                 (fun t => contains (lit "i think") (Dashboard.clean_text U t))
                 (map body cs ++ map title ps)
            then [lit "Opinionated"] else [];
          Dashboard.subreddit_activity :=
            Dashboard.most_common 10
              (Dashboard.Counter
                 (map comment_subreddit cs ++ map submission_subreddit ps));
          Dashboard.activity_hours :=
            map (fun c => hour D (fromtimestamp D (comment_created_utc c))) cs;
          Dashboard.sample_comments :=
            map (fun c => firstn 200 (body c) ++ lit "...") (firstn 3 cs);
          Dashboard.sample_posts := map title (firstn 3 ps) |}.
Proof.
  intros Hcs Hps.
  unfold Dashboard.generate_persona, Dashboard.generate_persona_try.
  rewrite Hcs, Hps. cbn [bind].
  destruct cs as [|c cs]; [destruct ps as [|p ps]; [discriminate|]|];
    (destruct (user_created_utc _) as [created|]; cbn [bind]; [|discriminate]);
    (destruct (user_link_karma _) as [lk|]; cbn [bind]; [|discriminate]);
    (destruct (user_comment_karma _) as [ck|]; cbn [bind]; [|discriminate]);
    (destruct (Dashboard.analyze_writing_style _ _) as [st|] eqn:Hst;
       cbn [bind]; [|discriminate]);
    intros [= <-]; exists st, created, ck, lk;
    (split; [discriminate|]);
    (split; [first [exact Hst | reflexivity] | reflexivity]).
Qed.

(** ** The tally of the communities *)

Lemma first_occurrences_keys (xs : list str) :
  map fst (Dashboard.Counter xs) = first_occurrences xs.
Proof. apply (counter_keys xs []). Qed.

(** X1.  In a report of the console program every comment is counted once in
    the tally of its community: the communities of the tally are those of the
    comments, each once, in the order in which they were first commented in;
    the count of a community is the number of the comments in it; and the
    counts add up to the number of comments of the activity summary. *)
Theorem subreddit_tally_counts
    (U : UnicodeData) (D : DatetimeLib) (reddit : Reddit) (username : str)
    (cs : list Comment) (persona : Console.Persona D)
    (comments : user_comments_new (reddit username) 100 = Ok cs)
    (run : Console.generate_persona U D reddit username = Console.Report persona) :
  let tally := Console.Preferred_Subreddits persona in
  let names := map comment_subreddit cs in
  map fst tally = first_occurrences names
  /\ NoDup (map fst tally)
  /\ (forall name n, In (name, n) tally <-> 0 < n /\ n = occurrences name names)
  /\ list_sum (map snd tally) =
     Console.Total_Comments (Console.Activity_Summary persona).
Proof.
  destruct (@console_report_shape U D reddit username cs persona comments run)
    as (ps & st & created & ck & lk & _ & _ & _ & ->).
  cbv zeta. cbn [Console.Preferred_Subreddits Console.Activity_Summary
                 Console.Total_Comments].
  rewrite console_tally. cbn [fst].
  change (fold_left (fun d x => update_default 0 S x d)
            (map comment_subreddit cs) [])
    with (Dashboard.Counter (map comment_subreddit cs)).
  pose proof (counter_tallies (map comment_subreddit cs)) as Htally.
  split; [apply first_occurrences_keys|].
  split; [apply Htally|].
  split; [now apply tallies_entries|].
  unfold Dashboard.Counter. rewrite counter_sum. simpl. now rewrite length_map.
Qed.

(** Scenario C: one comment in "other", then three in "test". *)
Lemma subreddit_tally_counts_witness :
  exists persona,
    Console.generate_persona sigma_db plain_clock scenario_C_reddit (lit "someone")
    = Console.Report persona
    /\ map fst (Console.Preferred_Subreddits persona) = [lit "other"; lit "test"]
    /\ list_sum (map snd (Console.Preferred_Subreddits persona)) = 4.
Proof.
  destruct (@generate_persona_report sigma_db plain_clock scenario_C_reddit
              (lit "someone") _ _ _ _ _ eq_refl eq_refl
              ltac:(discriminate) eq_refl eq_refl eq_refl) as (st & _ & Hrun).
  cbv zeta in Hrun. eexists. split; [exact Hrun|].
  destruct (@subreddit_tally_counts sigma_db plain_clock scenario_C_reddit
              (lit "someone") _ _ eq_refl Hrun) as (Hkeys & _ & _ & Hsum).
  split; [exact Hkeys | exact Hsum].
Defined.

(** ** The citations of the labels *)

Lemma detect_interests_nodup (U : UnicodeData) (text : str) :
  NoDup (Console.detect_interests U text).
Proof.
  rewrite detect_interests_filter. apply labels_nodup.
  apply distinct_nodup. reflexivity.
Qed.

Lemma detect_personality_traits_nodup (U : UnicodeData) (text : str) :
  NoDup (Console.detect_personality_traits U text).
Proof.
  rewrite detect_personality_traits_filter. apply labels_nodup.
  apply distinct_nodup. reflexivity.
Qed.

Section Provenance.
Variable detect : str -> list str.
Hypothesis detect_nodup : forall text, NoDup (detect text).

Lemma cited_by_app (cs : list Comment) (c : Comment) (label : str) :
  cited_by detect (cs ++ [c]) label
  = cited_by detect cs label
    ++ if has_label (detect (body c)) label then [comment_permalink c] else [].
Proof.
  unfold cited_by. rewrite filter_app, map_app. simpl.
  now destruct (has_label (detect (body c)) label).
Qed.

(** One comment: its permalink is appended to the citations of each of its
    labels, the other labels keep theirs. *)
Lemma cite_labels (permalink : str) (labels : list str)
    (d : list (str * list str)) :
  NoDup labels ->
  NoDup (map fst d) ->
  NoDup (map fst (fold_left (Console.cite permalink) labels d))
  /\ forall label,
       lookup label (fold_left (Console.cite permalink) labels d)
       = if has_label labels label
         then Some (match lookup label d with Some urls => urls | None => [] end
                    ++ [permalink])
         else lookup label d.
Proof.
  revert d. induction labels as [|l labels IH]; intros d Hl Hd; simpl.
  - split; [assumption | reflexivity].
  - inversion Hl as [|? ? Hnotin Hl']; subst.
    destruct (IH (Console.cite permalink d l) Hl') as [Hnd Hlook];
      [now apply update_nodup|].
    split; [exact Hnd|]. intros label. rewrite Hlook.
    unfold has_label. simpl.
    destruct (str_eqb label l) eqn:Heq; simpl.
    + apply str_eqb_eq in Heq. subst label.
      assert (Hno : existsb (str_eqb l) labels = false).
      { apply not_true_iff_false. intros H.
        apply (has_label_in labels l) in H. contradiction. }
      rewrite Hno. unfold Console.cite. now rewrite lookup_update_same.
    + assert (Hne : label <> l)
        by (intros ->; now rewrite str_eqb_refl in Heq).
      unfold Console.cite. now rewrite lookup_update_other by exact Hne.
Qed.

Lemma cites_step (d : list (str * list str)) (cs : list Comment) (c : Comment) :
  cites detect d cs ->
  cites detect (fold_left (Console.cite (comment_permalink c)) (detect (body c)) d)
    (cs ++ [c]).
Proof.
  intros [Hnd Hlook].
  destruct (@cite_labels (comment_permalink c) (detect (body c)) d
              (detect_nodup (body c)) Hnd) as [Hnd' Hlook'].
  split; [exact Hnd'|]. intros label.
  rewrite Hlook', cited_by_app, Hlook.
  destruct (has_label (detect (body c)) label).
  - destruct (cited_by detect cs label); reflexivity.
  - now rewrite app_nil_r.
Qed.

Lemma cites_fold (cs pre : list Comment) (d : list (str * list str)) :
  cites detect d pre ->
  cites detect
    (fold_left
       (fun d c => fold_left (Console.cite (comment_permalink c)) (detect (body c)) d)
       cs d)
    (pre ++ cs).
Proof.
  revert pre d. induction cs as [|c cs IH]; intros pre d H; simpl.
  - now rewrite app_nil_r.
  - replace (pre ++ c :: cs) with ((pre ++ [c]) ++ cs)
      by now rewrite <- app_assoc.
    apply IH. now apply cites_step.
Qed.

Lemma cites_entries (d : list (str * list str)) (cs : list Comment) :
  cites detect d cs ->
  forall label urls,
    In (label, urls) d <-> urls <> [] /\ urls = cited_by detect cs label.
Proof.
  intros [Hnd Hlook] label urls. rewrite (lookup_in label urls d Hnd), Hlook.
  destruct (cited_by detect cs label) as [|url rest]; split.
  - discriminate.
  - intros [Hne ->]. now elim Hne.
  - intros [= <-]. split; [discriminate | reflexivity].
  - intros [_ ->]. reflexivity.
Qed.
End Provenance.

Lemma console_interest_citations
    (U : UnicodeData) (cs : list Comment) (acc : Console.Tally) :
  snd (fst (fold_left (Console.analyze_comment U) cs acc))
  = fold_left
      (fun d c =>
         fold_left (Console.cite (comment_permalink c))
           (Console.detect_interests U (body c)) d)
      cs (snd (fst acc)).
Proof.
  revert acc. induction cs as [|c cs IH]; intros [[subs ints] trs];
    [reflexivity|].
  simpl fold_left. rewrite IH. reflexivity.
Qed.

Lemma console_trait_citations
    (U : UnicodeData) (cs : list Comment) (acc : Console.Tally) :
  snd (fold_left (Console.analyze_comment U) cs acc)
  = fold_left
      (fun d c =>
         fold_left (Console.cite (comment_permalink c))
           (Console.detect_personality_traits U (body c)) d)
      cs (snd acc).
Proof.
  revert acc. induction cs as [|c cs IH]; intros [[subs ints] trs];
    [reflexivity|].
  simpl fold_left. rewrite IH. reflexivity.
Qed.

(** X2.  In a report of the console program the citations of a label are
    exactly the permalinks of the comments that the classifier gave the
    label, in the order of the comments, each comment once.  A label that no
    comment was given has no entry, so no entry has an empty list of
    citations, and no label has two entries.  This holds for the interests
    and for the traits. *)
Theorem citations_are_the_matching_comments
    (U : UnicodeData) (D : DatetimeLib) (reddit : Reddit) (username : str)
    (cs : list Comment) (persona : Console.Persona D)
    (comments : user_comments_new (reddit username) 100 = Ok cs)
    (run : Console.generate_persona U D reddit username = Console.Report persona) :
  (forall label urls,
     In (label, urls) (Console.Interests_Hobbies persona) <->
     urls <> [] /\ urls = cited_by (Console.detect_interests U) cs label)
  /\ (forall label urls,
        In (label, urls) (Console.Personality_Traits persona) <->
        urls <> [] /\ urls = cited_by (Console.detect_personality_traits U) cs label)
  /\ NoDup (map fst (Console.Interests_Hobbies persona))
  /\ NoDup (map fst (Console.Personality_Traits persona)).
Proof.
  destruct (@console_report_shape U D reddit username cs persona comments run)
    as (ps & st & created & ck & lk & _ & _ & _ & ->).
  cbn [Console.Interests_Hobbies Console.Personality_Traits].
  rewrite console_interest_citations, console_trait_citations. cbn [fst snd].
  assert (Hi := @cites_fold (Console.detect_interests U)
                  (detect_interests_nodup U) cs [] []
                  (conj (NoDup_nil _) (fun _ => eq_refl))).
  assert (Ht := @cites_fold (Console.detect_personality_traits U)
                  (detect_personality_traits_nodup U) cs [] []
                  (conj (NoDup_nil _) (fun _ => eq_refl))).
  cbn [app] in Hi, Ht.
  split; [exact (@cites_entries _ _ _ Hi)|].
  split; [exact (@cites_entries _ _ _ Ht)|].
  split; [apply Hi | apply Ht].
Qed.

(** Scenario B: Technology is cited by the first comment, Humorous by the
    second. *)
Lemma citations_are_the_matching_comments_witness :
  exists persona,
    Console.generate_persona sigma_db plain_clock scenario_B_reddit (lit "someone")
    = Console.Report persona
    /\ In (lit "Technology", [lit "/r/learnpython/comments/1/"])
         (Console.Interests_Hobbies persona)
    /\ In (lit "Humorous", [lit "/r/funny/comments/2/"])
         (Console.Personality_Traits persona).
Proof.
  destruct (@generate_persona_report sigma_db plain_clock scenario_B_reddit
              (lit "someone") _ _ _ _ _ eq_refl eq_refl
              ltac:(discriminate) eq_refl eq_refl eq_refl) as (st & _ & Hrun).
  cbv zeta in Hrun. eexists. split; [exact Hrun|].
  destruct (@citations_are_the_matching_comments sigma_db plain_clock
              scenario_B_reddit (lit "someone") _ _ eq_refl Hrun)
    as (Hi & Ht & _).
  split; [apply Hi | apply Ht]; (split; [discriminate | reflexivity]).
Defined.

(** ** What the submissions do not change *)

(** X3.  The console program classifies and tallies the comments only: two
    reports made from the same comments have the same tally of communities,
    the same interests and traits with the same citations, the same first
    seen and the same cited comments, whatever the submissions, the karma,
    the creation time and the name of the two accounts are. *)
Theorem labels_come_from_the_comments
    (U : UnicodeData) (D : DatetimeLib) (reddit reddit' : Reddit)
    (username username' : str) (cs : list Comment)
    (persona persona' : Console.Persona D)
    (comments : user_comments_new (reddit username) 100 = Ok cs)
    (comments' : user_comments_new (reddit' username') 100 = Ok cs)
    (run : Console.generate_persona U D reddit username = Console.Report persona)
    (run' : Console.generate_persona U D reddit' username' =
            Console.Report persona') :
  Console.Preferred_Subreddits persona = Console.Preferred_Subreddits persona'
  /\ Console.Interests_Hobbies persona = Console.Interests_Hobbies persona'
  /\ Console.Personality_Traits persona = Console.Personality_Traits persona'
  /\ Console.First_Seen (Console.Activity_Summary persona) =
     Console.First_Seen (Console.Activity_Summary persona')
  /\ Console.Comments (Console.Citations_ persona) =
     Console.Comments (Console.Citations_ persona').
Proof.
  destruct (@console_report_shape U D reddit username cs persona comments run)
    as (ps & st & created & ck & lk & _ & _ & _ & ->).
  destruct (@console_report_shape U D reddit' username' cs persona'
              comments' run')
    as (ps' & st' & created' & ck' & lk' & _ & _ & _ & ->).
  repeat split.
Qed.

(** Scenario B with and without a submission whose title has keywords. *)
Lemma labels_come_from_the_comments_witness :
  exists persona persona',
    Console.generate_persona sigma_db plain_clock scenario_B_reddit (lit "someone")
    = Console.Report persona
    /\ Console.generate_persona sigma_db plain_clock scenario_B_poster_reddit
         (lit "poster") = Console.Report persona'
    /\ Console.Interests_Hobbies persona = Console.Interests_Hobbies persona'
    /\ Console.Personality_Traits persona = Console.Personality_Traits persona'.
Proof.
  destruct (@generate_persona_report sigma_db plain_clock scenario_B_reddit
              (lit "someone") _ _ _ _ _ eq_refl eq_refl
              ltac:(discriminate) eq_refl eq_refl eq_refl) as (st & _ & Hrun).
  destruct (@generate_persona_report sigma_db plain_clock
              scenario_B_poster_reddit (lit "poster") _ _ _ _ _ eq_refl eq_refl
              ltac:(discriminate) eq_refl eq_refl eq_refl) as (st' & _ & Hrun').
  cbv zeta in Hrun, Hrun'. do 2 eexists.
  split; [exact Hrun|]. split; [exact Hrun'|].
  destruct (@labels_come_from_the_comments sigma_db plain_clock
              scenario_B_reddit scenario_B_poster_reddit
              (lit "someone") (lit "poster") _ _ _ eq_refl eq_refl Hrun Hrun')
    as (_ & Hi & Ht & _).
  split; [exact Hi | exact Ht].
Defined.

(** ** First seen *)

Section Minimum.
Variable A : Type.
Variable ltb : A -> A -> bool.
Hypothesis ltb_irreflexive : forall a, ltb a a = false.
Hypothesis ltb_transitive :
  forall a b c, ltb a b = true -> ltb b c = true -> ltb a c = true.

(** [min] returns an item of the sequence that no item is less than. *)
Lemma py_min_least (xs : list A) (x : A) :
  (py_min ltb x xs = x \/ ltb (py_min ltb x xs) x = true)
  /\ In (py_min ltb x xs) (x :: xs)
  /\ forall y, In y (x :: xs) -> ltb y (py_min ltb x xs) = false.
Proof.
  unfold py_min. revert x. induction xs as [|z xs IH]; intros x.
  - simpl. split; [now left|]. split; [now left|].
    intros y [<- | []]. apply ltb_irreflexive.
  - simpl fold_left. destruct (ltb z x) eqn:Hzx.
    + destruct (IH z) as (Hbelow & Hin & Hleast).
      set (r := fold_left (fun m y => if ltb y m then y else m) xs z) in *.
      assert (Hrx : ltb r x = true).
      { destruct Hbelow as [-> | Hrz]; [assumption|].
        eapply ltb_transitive; eassumption. }
      split; [now right|]. split; [now right|].
      intros y [<- | Hy]; [|now apply Hleast].
      destruct (ltb x r) eqn:Hxr; [|reflexivity].
      rewrite <- (ltb_irreflexive x). symmetry.
      eapply ltb_transitive; eassumption.
    + destruct (IH x) as (Hbelow & Hin & Hleast).
      set (r := fold_left (fun m y => if ltb y m then y else m) xs x) in *.
      split; [assumption|]. split.
      { destruct Hin as [Hin | Hin]; [now left | now right; right]. }
      intros y [<- | [<- | Hy]].
      * apply Hleast. now left.
      * destruct (ltb z r) eqn:Hzr; [|reflexivity].
        rewrite <- Hzx. symmetry.
        destruct Hbelow as [Heq | Hrx]; [now rewrite <- Heq|].
        eapply ltb_transitive; eassumption.
      * apply Hleast. now right.
Qed.
End Minimum.

Lemma plain_clock_order :
  (forall a, datetime_ltb plain_clock a a = false)
  /\ (forall a b c,
        datetime_ltb plain_clock a b = true ->
        datetime_ltb plain_clock b c = true ->
        datetime_ltb plain_clock a c = true).
Proof.
  simpl. split.
  - intros a. apply negb_false_iff, Qle_bool_iff, Qle_refl.
  - intros a b c. fold (Qgtb b a) (Qgtb c b) (Qgtb c a).
    rewrite !Qgtb_true. apply Qlt_trans.
Qed.

(** X4.  When the account has comments and the order of the datetimes is a
    strict order, the first seen of a report of the console program is the
    datetime of one of the comments, and no comment has an earlier one. *)
Theorem first_seen_is_the_earliest
    (U : UnicodeData) (D : DatetimeLib) (reddit : Reddit) (username : str)
    (c : Comment) (cs : list Comment) (persona : Console.Persona D)
    (irreflexive : forall a, datetime_ltb D a a = false)
    (transitive :
       forall a b c,
         datetime_ltb D a b = true -> datetime_ltb D b c = true ->
         datetime_ltb D a c = true)
    (comments : user_comments_new (reddit username) 100 = Ok (c :: cs))
    (run : Console.generate_persona U D reddit username = Console.Report persona) :
  exists seen,
    Console.First_Seen (Console.Activity_Summary persona) = inl seen
    /\ (exists c', In c' (c :: cs)
                  /\ seen = fromtimestamp D (comment_created_utc c'))
    /\ forall c', In c' (c :: cs) ->
         datetime_ltb D (fromtimestamp D (comment_created_utc c')) seen = false.
Proof.
  destruct (@console_report_shape U D reddit username (c :: cs) persona
              comments run)
    as (ps & st & created & ck & lk & _ & _ & _ & ->).
  cbn [Console.Activity_Summary Console.First_Seen].
  unfold Console.first_seen. cbn [map].
  set (stamp := fun c0 : Comment => fromtimestamp D (comment_created_utc c0)).
  destruct (@py_min_least (datetime D) (datetime_ltb D) irreflexive transitive
              (map stamp cs) (stamp c)) as (_ & Hin & Hleast).
  eexists. split; [reflexivity|]. split.
  - change (stamp c :: map stamp cs) with (map stamp (c :: cs)) in Hin.
    apply in_map_iff in Hin. destruct Hin as [c' [Heq Hin]].
    exists c'. split; [assumption | now symmetry].
  - intros c' Hc'. apply Hleast.
    exact (in_map stamp (c :: cs) c' Hc').
Qed.

(** Scenario B: the first comment is the earlier one. *)
Lemma first_seen_is_the_earliest_witness :
  exists persona,
    Console.generate_persona sigma_db plain_clock scenario_B_reddit (lit "someone")
    = Console.Report persona
    /\ Console.First_Seen (Console.Activity_Summary persona)
       = inl 1700000000%Q.
Proof.
  destruct (@generate_persona_report sigma_db plain_clock scenario_B_reddit
              (lit "someone") _ _ _ _ _ eq_refl eq_refl
              ltac:(discriminate) eq_refl eq_refl eq_refl) as (st & _ & Hrun).
  cbv zeta in Hrun. eexists. split; [exact Hrun|].
  destruct (@first_seen_is_the_earliest sigma_db plain_clock scenario_B_reddit
              (lit "someone") _ _ _ (proj1 plain_clock_order)
              (proj2 plain_clock_order) eq_refl Hrun) as (seen & Hseen & _).
  reflexivity.
Defined.

(** ** The text of the report *)

(** The style of a batch that is not empty has both frequencies. *)
Lemma style_has_frequencies (U : UnicodeData) (texts : list str) (st : Console.Style) :
  texts <> [] ->
  Console.analyze_writing_style U texts = Ok st ->
  exists question exclamation,
    Console.Question_Frequency st = Some question
    /\ Console.Exclamation_Frequency st = Some exclamation.
Proof.
  destruct texts as [|t texts]; [congruence|]. intros _.
  unfold Console.analyze_writing_style, Console.style_metrics.
  destruct (truediv _ _) as [avg|msg]; cbn [bind]; [|discriminate].
  intros [= <-]. now do 2 eexists.
Qed.

(** X5.  [format_output] never raises on what [generate_persona] returns: a
    report made by [generate_persona] has a style with both frequencies, so
    no key is missing; and the dict of an error is rendered as the single
    line that ends with the message. *)
Theorem format_output_of_generate_persona
    (U : UnicodeData) (D : DatetimeLib) (format_1f : Q -> str)
    (reddit : Reddit) (username : str) :
  (exists text,
     Console.format_output format_1f
       (Console.generate_persona U D reddit username) = Ok text)
  /\ (forall msg,
        Console.generate_persona U D reddit username = Console.Error msg ->
        Console.format_output format_1f
          (Console.generate_persona U D reddit username)
        = Ok ([0x274C]%N ++ lit " Error generating persona: " ++ msg)).
Proof.
  split.
  - destruct (Console.generate_persona U D reddit username) as [msg|persona]
      eqn:Hrun; [now eexists|].
    destruct (@console_report_reads U D reddit username persona Hrun)
      as (cs & ps & created & ck & lk & Hcs & _).
    destruct (@console_report_shape U D reddit username cs persona Hcs Hrun)
      as (ps' & st & created' & ck' & lk' & _ & Hne & Hst & ->).
    destruct (style_has_frequencies U Hne Hst) as (q & e & Hq & He).
    unfold Console.format_output. cbn [Console.Writing_Style].
    rewrite Hq, He. cbn [getitem bind]. now eexists.
  - intros msg ->. reflexivity.
Qed.

(** X6.  A report whose style is the result of [analyze_writing_style] for
    no text cannot be rendered: [format_output] raises the [KeyError] of the
    question frequency, which that result does not have. *)
Theorem format_output_without_text
    (U : UnicodeData) (D : DatetimeLib) (format_1f : Q -> str)
    (persona : Console.Persona D)
    (no_text : Console.analyze_writing_style U [] =
               Ok (Console.Writing_Style persona)) :
  Console.format_output format_1f (Console.Report persona)
  = Raise (lit "'Question Frequency'").
Proof.
  injection no_text as Hstyle.
  unfold Console.format_output. rewrite <- Hstyle. reflexivity.
Qed.

Lemma format_output_without_text_witness :
  Console.format_output (fun _ => lit "0.0") (Console.Report no_text_persona)
  = Raise (lit "'Question Frequency'").
Proof.
  exact (@format_output_without_text sigma_db plain_clock (fun _ => lit "0.0")
           no_text_persona eq_refl).
Defined.

(** ** More on the style analyzer *)

Lemma list_sum_perm (l l' : list nat) :
  Permutation l l' -> list_sum l = list_sum l'.
Proof.
  induction 1; simpl; lia.
Qed.

Lemma count_if_le (A : Type) (p : A -> bool) (l : list A) :
  count_if p l <= List.length l.
Proof. apply filter_length_le. Qed.

(** X7.  The style does not depend on the order of the texts: a batch and
    any rearrangement of it get the same result, in both programs. *)
Theorem style_ignores_the_order
    (U : UnicodeData) (texts texts' : list str)
    (rearranged : Permutation texts texts') :
  Console.analyze_writing_style U texts = Console.analyze_writing_style U texts'
  /\ Dashboard.analyze_writing_style U texts =
     Dashboard.analyze_writing_style U texts'.
Proof.
  assert (Hlen := Permutation_length rearranged).
  assert (Hwords :
            list_sum (map (fun t => List.length (split U t)) texts)
            = list_sum (map (fun t => List.length (split U t)) texts'))
    by now apply list_sum_perm, Permutation_map.
  assert (Hcount : forall p : str -> bool, count_if p texts = count_if p texts')
    by (intros p; now apply count_if_perm).
  assert (Hconsole : Console.style_metrics U texts = Console.style_metrics U texts').
  { unfold Console.style_metrics, Console.total_words.
    now rewrite Hwords, Hlen, !Hcount. }
  assert (Hdashboard :
            Dashboard.style_metrics U texts = Dashboard.style_metrics U texts').
  { unfold Dashboard.style_metrics. now rewrite Hwords, Hlen, !Hcount. }
  destruct texts as [|t texts], texts' as [|t' texts']; try discriminate Hlen.
  - split; reflexivity.
  - split; assumption.
Qed.

Lemma style_ignores_the_order_witness :
  Console.analyze_writing_style sigma_db
    [lit "I think Python is great, however it's slow"; lit "lol that's hilarious"]
  = Console.analyze_writing_style sigma_db
      [lit "lol that's hilarious"; lit "I think Python is great, however it's slow"].
Proof.
  exact (proj1 (@style_ignores_the_order sigma_db _ _ (perm_swap _ _ []))).
Defined.

(** X8.  The usages and frequencies of a style count texts, not
    occurrences: none of them exceeds the number of texts, and the average
    word count is not negative. *)
Theorem style_counts_texts
    (U : UnicodeData) (texts : list str) (st : Console.Style)
    (run : Console.analyze_writing_style U texts = Ok st) :
  Console.Emoji_Usage st <= List.length texts
  /\ Console.Formality_Score st <= List.length texts
  /\ (forall n, Console.Question_Frequency st = Some n -> n <= List.length texts)
  /\ (forall n, Console.Exclamation_Frequency st = Some n -> n <= List.length texts)
  /\ (0 <= Console.Average_Word_Count st)%Q.
Proof.
  destruct texts as [|t texts].
  - injection run as <-. simpl. repeat split; try lia; try discriminate.
  - unfold Console.analyze_writing_style, Console.style_metrics in run.
    destruct (truediv_nonzero (Console.total_words U (t :: texts))
                (b := List.length (t :: texts))) as [avg [Havg Heq]];
      [discriminate|].
    rewrite Havg in run. cbn [bind] in run. injection run as <-.
    cbn [Console.Emoji_Usage Console.Formality_Score Console.Question_Frequency
         Console.Exclamation_Frequency Console.Average_Word_Count].
    split; [apply count_if_le|]. split; [apply count_if_le|].
    split; [intros n [= <-]; apply count_if_le|].
    split; [intros n [= <-]; apply count_if_le|].
    rewrite Heq. unfold Qle. simpl. lia.
Qed.

(** A text with three emojis and two question marks counts once. *)
Lemma style_counts_texts_witness :
  exists st,
    Console.analyze_writing_style sigma_db
      [[0x1F602; 0x1F602; 0x1F60A; 32; 63; 63]%N] = Ok st
    /\ Console.Emoji_Usage st = 1
    /\ Console.Question_Frequency st = Some 1.
Proof.
  eexists. split; [reflexivity|].
  destruct (@style_counts_texts sigma_db
              [[0x1F602; 0x1F602; 0x1F60A; 32; 63; 63]%N] _ eq_refl)
    as (Hemoji & _).
  split; reflexivity.
Defined.

(** ** Ties in the ranking *)

Lemma insert_desc_with_count (n : nat) (x : str * nat) (l : list (str * nat)) :
  with_count n (insert_desc x l) = with_count n (x :: l).
Proof.
  unfold with_count. induction l as [|y l IH]; [reflexivity|].
  simpl insert_desc. destruct (Nat.leb_spec (snd y) (snd x)) as [Hle | Hgt];
    [reflexivity|].
  simpl filter in *. rewrite IH.
  destruct (Nat.eqb_spec (snd x) n), (Nat.eqb_spec (snd y) n);
    try reflexivity. lia.
Qed.

Lemma sorted_with_count (n : nat) (l : list (str * nat)) :
  with_count n (sorted_by_count_desc l) = with_count n l.
Proof.
  induction l as [|x l IH]; [reflexivity|].
  simpl sorted_by_count_desc. rewrite insert_desc_with_count.
  unfold with_count in *. simpl. now rewrite IH.
Qed.

Lemma firstn_with_count (k n : nat) (l : list (str * nat)) :
  exists rest, with_count n l = with_count n (firstn k l) ++ rest.
Proof.
  exists (with_count n (skipn k l)). unfold with_count.
  now rewrite <- filter_app, firstn_skipn.
Qed.

(** X9.  Communities with the same count are ranked in the order of the
    tally, which is the order of their first appearance: for every count,
    the communities of the ranking that have it are the first ones of the
    tally that have it, in the same order.  This holds for the five
    communities of the console report and for [most_common] of the
    dashboard. *)
Theorem ranking_keeps_ties_in_order
    (D : DatetimeLib) (persona : Console.Persona D) (n : nat) :
  (exists rest,
     with_count n (Console.Preferred_Subreddits persona)
     = with_count n (Console.top_subs persona) ++ rest)
  /\ (forall k counts,
        exists rest,
          with_count n counts
          = with_count n (Dashboard.most_common k counts) ++ rest).
Proof.
  split.
  - unfold Console.top_subs.
    rewrite <- (sorted_with_count n (Console.Preferred_Subreddits persona)).
    apply firstn_with_count.
  - intros k counts. unfold Dashboard.most_common.
    rewrite <- (sorted_with_count n counts). apply firstn_with_count.
Qed.

Example ranking_ties :
  sorted_by_count_desc
    [(lit "a", 1); (lit "b", 3); (lit "c", 1); (lit "d", 3)]
  = [(lit "b", 3); (lit "d", 3); (lit "a", 1); (lit "c", 1)].
Proof. reflexivity. Qed.

(** ** The activity of the dashboard *)

Lemma firstn_in (A : Type) (n : nat) (l : list A) (x : A) :
  In x (firstn n l) -> In x l.
Proof.
  intros H. rewrite <- (firstn_skipn n l). apply in_or_app. now left.
Qed.

Lemma firstn_nodup (A : Type) (n : nat) (l : list A) :
  NoDup l -> NoDup (firstn n l).
Proof.
  intros H. rewrite <- (firstn_skipn n l) in H.
  now apply NoDup_app_remove_r in H.
Qed.

(** X10.  The activity of a report of the dashboard lists at most ten
    communities, each once; the count of a listed community is the number of
    the comments and submissions in it; and when the account was active in
    at most ten communities, all of them are listed. *)
Theorem dashboard_activity_counts
    (U : UnicodeData) (D : DatetimeLib) (list_of_set : list str -> list str)
    (reddit : Reddit) (username : str)
    (cs : list Comment) (ps : list Submission) (persona : Dashboard.Persona)
    (comments : user_comments_new (reddit username) 100 = Ok cs)
    (posts : user_submissions_new (reddit username) 100 = Ok ps)
    (run : Dashboard.generate_persona U D list_of_set reddit username =
           Dashboard.Report persona) :
  let names := map comment_subreddit cs ++ map submission_subreddit ps in
  let activity := Dashboard.subreddit_activity persona in
  List.length activity <= 10
  /\ NoDup (map fst activity)
  /\ (forall name n,
        In (name, n) activity -> 0 < n /\ n = occurrences name names)
  /\ (List.length (first_occurrences names) <= 10 ->
      forall name,
        0 < occurrences name names ->
        In (name, occurrences name names) activity).
Proof.
  destruct (@dashboard_report_shape U D list_of_set reddit username cs ps
              persona comments posts run)
    as (st & created & ck & lk & _ & _ & ->).
  cbv zeta. cbn [Dashboard.subreddit_activity].
  set (names := map comment_subreddit cs ++ map submission_subreddit ps).
  pose proof (counter_tallies names) as Htally.
  pose proof (sorted_by_count_desc_perm (Dashboard.Counter names)) as Hperm.
  unfold Dashboard.most_common. split; [|split; [|split]].
  - rewrite length_firstn. apply Nat.le_min_l.
  - rewrite <- firstn_map. apply firstn_nodup.
    apply (Permutation_NoDup (l := map fst (Dashboard.Counter names))).
    + apply Permutation_sym, Permutation_map, Hperm.
    + apply Htally.
  - intros name n Hin. apply firstn_in in Hin.
    apply (Permutation_in _ Hperm) in Hin.
    now apply (tallies_entries Htally).
  - intros Hfew name Hpos.
    rewrite firstn_all2.
    + apply (Permutation_in _ (Permutation_sym Hperm)).
      apply (tallies_entries Htally). now split.
    + rewrite (Permutation_length Hperm).
      rewrite <- (length_map fst), first_occurrences_keys. exact Hfew.
Qed.

(** Scenario B with a submission: three communities, one item in each. *)
Lemma dashboard_activity_counts_witness :
  exists persona,
    Dashboard.generate_persona sigma_db plain_clock (fun l => l)
      scenario_B_poster_reddit (lit "poster") = Dashboard.Report persona
    /\ In (lit "gaming", 1) (Dashboard.subreddit_activity persona).
Proof.
  eexists. split; [reflexivity|].
  refine (proj2 (proj2 (proj2
            (@dashboard_activity_counts sigma_db plain_clock (fun l => l)
               scenario_B_poster_reddit (lit "poster") _ _ _
               eq_refl eq_refl eq_refl))) _ (lit "gaming") _).
  - vm_compute. lia.
  - vm_compute. lia.
Defined.

(** X11.  A report of the dashboard always carries the style label and the
    average word count that the summary panel reads: its writing style is
    never the result for no text, and its label is one of the three of the
    dashboard. *)
Theorem dashboard_report_has_a_style
    (U : UnicodeData) (D : DatetimeLib) (list_of_set : list str -> list str)
    (reddit : Reddit) (username : str) (persona : Dashboard.Persona)
    (run : Dashboard.generate_persona U D list_of_set reddit username =
           Dashboard.Report persona) :
  exists label avg,
    Dashboard.style (Dashboard.writing_style persona) = Some label
    /\ Dashboard.avg_word_count (Dashboard.writing_style persona) = Some avg
    /\ Dashboard.Description (Dashboard.writing_style persona) = None
    /\ In label
         [lit "Detailed/analytical"; lit "Casual/expressive"; lit "Straightforward"].
Proof.
  destruct (@dashboard_report_reads U D list_of_set reddit username persona run)
    as (cs & ps & created & ck & lk & Hcs & Hps & _).
  destruct (@dashboard_report_shape U D list_of_set reddit username cs ps
              persona Hcs Hps run)
    as (st & created' & ck' & lk' & Hne & Hst & ->).
  cbn [Dashboard.writing_style].
  destruct (map body cs ++ map title ps) as [|t texts]; [congruence|].
  unfold Dashboard.analyze_writing_style, Dashboard.style_metrics in Hst.
  destruct (truediv _ _) as [avg|msg]; cbn [bind] in Hst; [|discriminate].
  injection Hst as <-.
  cbn [Dashboard.style Dashboard.avg_word_count Dashboard.Description].
  do 2 eexists. repeat split.
  destruct (Qgtb avg 75); [simpl; tauto|].
  destruct (3 <? _); simpl; tauto.
Qed.

Lemma dashboard_report_has_a_style_witness :
  exists persona,
    Dashboard.generate_persona sigma_db plain_clock (fun l => l)
      scenario_B_reddit (lit "someone") = Dashboard.Report persona
    /\ Dashboard.style (Dashboard.writing_style persona)
       = Some (lit "Straightforward").
Proof.
  eexists. split; [reflexivity|].
  destruct (@dashboard_report_has_a_style sigma_db plain_clock (fun l => l)
              scenario_B_reddit (lit "someone") _ eq_refl)
    as (label & avg & Hlabel & _).
  reflexivity.
Defined.

(** ** The two programs side by side *)

(** X12.  Every interest the dashboard detects in a text, the console
    program detects in it too: the keywords of the dashboard are among those
    of the console program, under the same labels. *)
Theorem dashboard_interests_within_console
    (U : UnicodeData) (text label : str)
    (detected : In label (Dashboard.detect_interests U text)) :
  In label (Console.detect_interests U text).
Proof.
  rewrite detect_interests_filter. apply labels_matched.
  unfold Dashboard.detect_interests in detected.
  apply labels_matched in detected.
  change (Dashboard.clean_text U text) with (Console._clean_text U text)
    in detected.
  destruct detected as (keywords & keyword & Hentry & Hkeyword & Hsub).
  unfold Dashboard.categories in Hentry. simpl in Hentry.
  destruct Hentry as [[= <- <-] | [[= <- <-] | [[= <- <-] | []]]];
    eexists; exists keyword;
    (split; [unfold Console.interest_keywords; simpl; eauto 6|]);
    (split; [simpl in *; tauto | assumption]).
Qed.

(** The converse fails: "linux" is a keyword of the console program only. *)
Lemma dashboard_interests_within_console_witness :
  In (lit "Gaming") (Console.detect_interests sigma_db (lit "My Xbox runs games"))
  /\ Dashboard.detect_interests sigma_db (lit "I run Linux") = []
  /\ Console.detect_interests sigma_db (lit "I run Linux") = [lit "Technology"].
Proof.
  split; [|split; reflexivity].
  apply (@dashboard_interests_within_console sigma_db
           (lit "My Xbox runs games") (lit "Gaming")).
  vm_compute. tauto.
Defined.

(** X13.  For an account without submissions, the five communities of the
    console report are the first five of the activity of the dashboard. *)
Theorem console_top_heads_dashboard_activity
    (U : UnicodeData) (D : DatetimeLib) (list_of_set : list str -> list str)
    (reddit : Reddit) (username : str) (cs : list Comment)
    (console : Console.Persona D) (dashboard : Dashboard.Persona)
    (comments : user_comments_new (reddit username) 100 = Ok cs)
    (no_posts : user_submissions_new (reddit username) 100 = Ok [])
    (run : Console.generate_persona U D reddit username = Console.Report console)
    (run' : Dashboard.generate_persona U D list_of_set reddit username =
            Dashboard.Report dashboard) :
  Console.top_subs console = firstn 5 (Dashboard.subreddit_activity dashboard).
Proof.
  destruct (@console_report_shape U D reddit username cs console comments run)
    as (ps & st & created & ck & lk & _ & _ & _ & ->).
  destruct (@dashboard_report_shape U D list_of_set reddit username cs []
              dashboard comments no_posts run')
    as (st' & created' & ck' & lk' & _ & _ & ->).
  unfold Console.top_subs, Dashboard.most_common.
  cbn [Console.Preferred_Subreddits Dashboard.subreddit_activity map].
  rewrite console_tally, app_nil_r, firstn_firstn. reflexivity.
Qed.

Lemma console_top_heads_dashboard_activity_witness :
  exists console dashboard,
    Console.generate_persona sigma_db plain_clock scenario_C_reddit (lit "someone")
    = Console.Report console
    /\ Dashboard.generate_persona sigma_db plain_clock (fun l => l)
         scenario_C_reddit (lit "someone") = Dashboard.Report dashboard
    /\ Console.top_subs console = firstn 5 (Dashboard.subreddit_activity dashboard).
Proof.
  destruct (@generate_persona_report sigma_db plain_clock scenario_C_reddit
              (lit "someone") _ _ _ _ _ eq_refl eq_refl
              ltac:(discriminate) eq_refl eq_refl eq_refl) as (st & _ & Hrun).
  cbv zeta in Hrun. do 2 eexists.
  split; [exact Hrun|]. split; [reflexivity|].
  exact (@console_top_heads_dashboard_activity sigma_db plain_clock (fun l => l)
           scenario_C_reddit (lit "someone") _ _ _ eq_refl eq_refl Hrun eq_refl).
Defined.

(** ** The path of the saved report *)

Lemma app_same_length_tail (A : Type) (l1 l1' l2 l2' : list A) :
  l1 ++ l2 = l1' ++ l2' -> List.length l2 = List.length l2' ->
  l1 = l1' /\ l2 = l2'.
Proof.
  revert l1'. induction l1 as [|a l1 IH]; intros [|a' l1'] Heq Hlen; simpl in *.
  - now split.
  - apply (f_equal (@List.length A)) in Heq. simpl in Heq.
    rewrite length_app in Heq. lia.
  - apply (f_equal (@List.length A)) in Heq. simpl in Heq.
    rewrite length_app in Heq. lia.
  - injection Heq as -> Heq. destruct (IH l1' Heq Hlen) as [-> ->]. now split.
Qed.

(** X14.  The path of a saved report tells the user and the time: two saves
    whose timestamps have the same length, as the timestamps of the format
    of [save_to_file] have, write to the same path only when the username
    and the timestamp are the same. *)
Theorem filename_tells_user_and_time
    (username username' timestamp timestamp' : str)
    (same_length : List.length timestamp = List.length timestamp')
    (same_path : Console.filename username timestamp =
                 Console.filename username' timestamp') :
  username = username' /\ timestamp = timestamp'.
Proof.
  unfold Console.filename in same_path.
  apply app_inv_head in same_path.
  apply app_same_length_tail in same_path.
  - destruct same_path as [-> Htail]. split; [reflexivity|].
    apply app_inv_head in Htail. now apply app_inv_tail in Htail.
  - rewrite !length_app. now rewrite same_length.
Qed.

Lemma filename_tells_user_and_time_witness :
  Console.filename (lit "spez") (lit "20240101_120000")
  = lit "personas/spez_persona_20240101_120000.txt"
  /\ lit "spez" = lit "spez"
  /\ lit "20240101_120000" = lit "20240101_120000".
Proof.
  split; [reflexivity|].
  exact (@filename_tells_user_and_time (lit "spez") (lit "spez")
           (lit "20240101_120000") (lit "20240101_120000") eq_refl eq_refl).
Defined.

(** ** Punctuation inside a text *)

Lemma re_sub_class_app (cls : N -> bool) (repl a b : str) :
  re_sub_class cls repl (a ++ b)
  = re_sub_class cls repl a ++ re_sub_class cls repl b.
Proof.
  induction a as [|c a IH]; simpl; [reflexivity|].
  now rewrite IH, app_assoc.
Qed.

(** Without a capital sigma, [str.lower] maps character by character. *)
Lemma lower_from_no_sigma (U : UnicodeData) (s before : str) :
  ~ In Char.capital_sigma s ->
  lower_from U before s = flat_map (Char.to_lower_full U) s.
Proof.
  revert before. induction s as [|c s IH]; intros before Hs; [reflexivity|].
  simpl. destruct (N.eqb_spec c Char.capital_sigma) as [-> | _].
  - exfalso. apply Hs. now left.
  - rewrite IH; [reflexivity|]. intros H. apply Hs. now right.
Qed.

Lemma clean_text_app (U : UnicodeData) (a b : str) :
  ~ In Char.capital_sigma a -> ~ In Char.capital_sigma b ->
  Console._clean_text U (a ++ b)
  = Console._clean_text U a ++ Console._clean_text U b.
Proof.
  intros Ha Hb. unfold Console._clean_text, lower.
  rewrite !lower_from_no_sigma; try assumption.
  - now rewrite flat_map_app, re_sub_class_app.
  - intros H. apply in_app_or in H. tauto.
Qed.

Lemma clean_text_punctuation (U : UnicodeData) (p : N) :
  Char.ascii_punctuation p = true -> p <> Char.underscore ->
  p <> Char.capital_sigma /\ Console._clean_text U [p] = [].
Proof.
  intros Hp Hne. unfold Char.ascii_punctuation, Char.between in Hp.
  repeat rewrite ?orb_true_iff, ?andb_true_iff, ?N.leb_le in Hp.
  unfold Char.underscore in Hne.
  assert (Hsigma : p <> Char.capital_sigma)
    by (unfold Char.capital_sigma; lia).
  split; [exact Hsigma|].
  unfold Console._clean_text, lower. simpl lower_from.
  destruct (N.eqb_spec p Char.capital_sigma); [contradiction|].
  unfold Char.to_lower_full, Char.is_ascii, Char.ascii_upper, Char.between.
  destruct (N.ltb_spec p 128); [|lia].
  assert (Hupper : (65 <=? p)%N && (p <=? 90)%N = false).
  { apply not_true_iff_false. rewrite andb_true_iff, !N.leb_le. lia. }
  rewrite Hupper. simpl.
  assert (Hmatch : Char.not_word_not_space U p = true).
  { unfold Char.not_word_not_space, Char.word_char, Char.isalnum, Char.isspace,
      Char.is_ascii, Char.ascii_digit, Char.ascii_upper, Char.ascii_lower,
      Char.between, Char.underscore.
    destruct (N.ltb_spec p 128); [|lia].
    apply negb_true_iff, not_true_iff_false.
    repeat rewrite ?orb_true_iff, ?andb_true_iff, ?N.leb_le, ?N.eqb_eq. lia. }
  now rewrite Hmatch.
Qed.

(** X15.  An ASCII punctuation character other than the underscore makes no
    difference, wherever it stands: the normalized text is the same with and
    without it, and so are the labels of the classifiers of both programs.
    The texts are taken to hold no capital sigma, whose lowercase form
    depends on the characters next to it. *)
Theorem punctuation_is_ignored
    (U : UnicodeData) (a b : str) (p : N)
    (punctuation : Char.ascii_punctuation p = true)
    (not_underscore : p <> Char.underscore)
    (no_sigma_before : ~ In Char.capital_sigma a)
    (no_sigma_after : ~ In Char.capital_sigma b) :
  Console._clean_text U (a ++ p :: b) = Console._clean_text U (a ++ b)
  /\ Console.detect_interests U (a ++ p :: b) = Console.detect_interests U (a ++ b)
  /\ Console.detect_personality_traits U (a ++ p :: b)
     = Console.detect_personality_traits U (a ++ b)
  /\ Dashboard.detect_interests U (a ++ p :: b)
     = Dashboard.detect_interests U (a ++ b).
Proof.
  destruct (clean_text_punctuation U punctuation not_underscore)
    as [Hsigma Hp].
  assert (Hclean : Console._clean_text U (a ++ p :: b)
                   = Console._clean_text U (a ++ b)).
  { change (a ++ p :: b) with (a ++ [p] ++ b).
    rewrite !clean_text_app, Hp; try assumption; try reflexivity.
    - intros [H | []]. now apply Hsigma.
    - intros H. apply in_app_or in H. destruct H as [[H | []] | H];
        [now apply Hsigma | contradiction]. }
  split; [exact Hclean|].
  unfold Console.detect_interests, Console.detect_personality_traits,
    Dashboard.detect_interests.
  change (Dashboard.clean_text U) with (Console._clean_text U).
  rewrite Hclean. repeat split.
Qed.

(** A hyphen inside a keyword does not hide it. *)
Lemma punctuation_is_ignored_witness :
  Console.detect_interests sigma_db (lit "py" ++ 45%N :: lit "thon")
  = Console.detect_interests sigma_db (lit "py" ++ lit "thon")
  /\ Console.detect_interests sigma_db (lit "py-thon") = [lit "Technology"].
Proof.
  split; [|reflexivity].
  refine (proj1 (proj2 (@punctuation_is_ignored sigma_db (lit "py") (lit "thon")
                          45%N eq_refl _ _ _))).
  - discriminate.
  - vm_compute. intuition discriminate.
  - vm_compute. intuition discriminate.
Defined.

(** Next to a capital sigma a punctuation character does make a difference:
    it ends the word, so the sigma before it becomes the final one. *)
Remark punctuation_after_capital_sigma :
  Console._clean_text sigma_db [65; 0x3A3; 33; 66]%N
  <> Console._clean_text sigma_db [65; 0x3A3; 66]%N.
Proof. discriminate. Qed.

(** X16.  For an account without submissions: when the dashboard reports the
    trait Opinionated, the report of the console program has an entry for
    Opinionated, cited by every comment that says "i think". *)
Theorem dashboard_opinionated_within_console
    (U : UnicodeData) (D : DatetimeLib) (list_of_set : list str -> list str)
    (reddit : Reddit) (username : str) (cs : list Comment)
    (console : Console.Persona D) (dashboard : Dashboard.Persona)
    (comments : user_comments_new (reddit username) 100 = Ok cs)
    (no_posts : user_submissions_new (reddit username) 100 = Ok [])
    (run : Console.generate_persona U D reddit username = Console.Report console)
    (run' : Dashboard.generate_persona U D list_of_set reddit username =
            Dashboard.Report dashboard)
    (opinionated : Dashboard.traits dashboard = [lit "Opinionated"]) :
  exists urls,
    In (lit "Opinionated", urls) (Console.Personality_Traits console)
    /\ forall c,
         In c cs ->
         contains (lit "i think") (Console._clean_text U (body c)) = true ->
         In (comment_permalink c) urls.
Proof.
  destruct (@console_report_shape U D reddit username cs console comments run)
    as (ps & st & created & ck & lk & _ & _ & _ & ->).
  destruct (@dashboard_report_shape U D list_of_set reddit username cs []
              dashboard comments no_posts run')
    as (st' & created' & ck' & lk' & _ & _ & ->).
  cbn [Dashboard.traits map] in opinionated. rewrite app_nil_r in opinionated.
  cbn [Console.Personality_Traits]. rewrite console_trait_citations. cbn [snd].
  assert (Ht := @cites_fold (Console.detect_personality_traits U)
                  (detect_personality_traits_nodup U) cs [] []
                  (conj (NoDup_nil _) (fun _ => eq_refl))).
  cbn [app] in Ht.
  assert (Hlabel : forall c,
             contains (lit "i think") (Console._clean_text U (body c)) = true ->
             has_label (Console.detect_personality_traits U (body c))
               (lit "Opinionated") = true).
  { intros c Hc. apply has_label_in.
    rewrite detect_personality_traits_filter. apply labels_matched.
    exists [lit "i think"; lit "in my opinion"; lit "i believe"], (lit "i think").
    split; [now left|]. split; [now left|]. now apply contains_substring. }
  exists (cited_by (Console.detect_personality_traits U) cs (lit "Opinionated")).
  split.
  - apply (@cites_entries _ _ _ Ht). split; [|reflexivity].
    destruct (existsb _ (map body cs)) eqn:Hsome; [|discriminate opinionated].
    apply existsb_exists in Hsome. destruct Hsome as [t [Hin Ht']].
    apply in_map_iff in Hin. destruct Hin as [c [<- Hin]].
    intros Hnone.
    assert (Hc : In (comment_permalink c)
                   (cited_by (Console.detect_personality_traits U) cs
                      (lit "Opinionated"))).
    { unfold cited_by. apply in_map, filter_In. split; [assumption|].
      now apply Hlabel. }
    rewrite Hnone in Hc. exact Hc.
  - intros c Hin Hc. unfold cited_by. apply in_map, filter_In.
    split; [assumption | now apply Hlabel].
Qed.

Lemma dashboard_opinionated_within_console_witness :
  exists console dashboard,
    Console.generate_persona sigma_db plain_clock scenario_B_reddit (lit "someone")
    = Console.Report console
    /\ Dashboard.generate_persona sigma_db plain_clock (fun l => l)
         scenario_B_reddit (lit "someone") = Dashboard.Report dashboard
    /\ Dashboard.traits dashboard = [lit "Opinionated"]
    /\ exists urls,
         In (lit "Opinionated", urls) (Console.Personality_Traits console).
Proof.
  destruct (@generate_persona_report sigma_db plain_clock scenario_B_reddit
              (lit "someone") _ _ _ _ _ eq_refl eq_refl
              ltac:(discriminate) eq_refl eq_refl eq_refl) as (st & _ & Hrun).
  cbv zeta in Hrun. do 2 eexists.
  split; [exact Hrun|]. split; [reflexivity|]. split; [reflexivity|].
  destruct (@dashboard_opinionated_within_console sigma_db plain_clock
              (fun l => l) scenario_B_reddit (lit "someone") _ _ _
              eq_refl eq_refl Hrun eq_refl eq_refl) as (urls & Hin & _).
  now exists urls.
Defined.

(** ** The prompt of the main loop *)

Section SplitSep.
Variable sep : str.

Lemma split_sep_nonempty (s : str) (skip : nat) (cur : str) :
  Main.split_sep sep skip cur s <> [].
Proof.
  revert skip cur. induction s as [|c s IH]; intros skip cur; simpl;
    [discriminate|].
  destruct skip; [|apply IH].
  destruct (startswith (c :: s) sep); [discriminate | apply IH].
Qed.

(** A text that holds the separator is split into two pieces at least. *)
Lemma split_sep_two (s cur : str) :
  sep <> [] -> contains sep s = true ->
  2 <= List.length (Main.split_sep sep 0 cur s).
Proof.
  intros Hsep. revert cur. induction s as [|c s IH]; intros cur Hin.
  - destruct sep; [congruence | discriminate Hin].
  - simpl in Hin. simpl Main.split_sep.
    destruct (startswith (c :: s) sep).
    + pose proof (@split_sep_nonempty s (List.length sep - 1) []) as Hne.
      destruct (Main.split_sep sep (List.length sep - 1) [] s);
        [congruence | simpl; lia].
    + now apply IH.
Qed.

(** A text without the separator is one piece. *)
Lemma split_sep_none (s cur : str) :
  ~ substring sep s -> Main.split_sep sep 0 cur s = [rev cur ++ s].
Proof.
  revert cur. induction s as [|c s IH]; intros cur Hnone.
  - simpl. now rewrite app_nil_r.
  - rewrite <- contains_substring in Hnone. simpl in Hnone.
    apply not_true_iff_false, orb_false_iff in Hnone.
    destruct Hnone as [Hstart Hrest].
    simpl Main.split_sep. rewrite Hstart, IH.
    + simpl. now rewrite <- app_assoc.
    + rewrite <- contains_substring. congruence.
Qed.

Lemma split_sep_skip (x s cur : str) :
  Main.split_sep sep (List.length x) cur (x ++ s) = Main.split_sep sep 0 cur s.
Proof.
  induction x as [|a x IH]; simpl; [|exact IH].
  destruct s; reflexivity.
Qed.

End SplitSep.

Lemma split_sep_cons (sep cur : str) (c : N) (rest : str) :
  Main.split_sep sep 0 cur (c :: rest)
  = if startswith (c :: rest) sep
    then rev cur :: Main.split_sep sep (List.length sep - 1) [] rest
    else Main.split_sep sep 0 (c :: cur) rest.
Proof. reflexivity. Qed.

(** The first piece ends where the separator first occurs. *)
Lemma split_sep_first (sep pre cur rest : str) :
  sep <> [] ->
  (forall p1 c p2,
     pre = p1 ++ c :: p2 -> startswith (c :: p2 ++ sep ++ rest) sep = false) ->
  Main.split_sep sep 0 cur (pre ++ sep ++ rest)
  = (rev cur ++ pre) :: Main.split_sep sep 0 [] rest.
Proof.
  intros Hsep. revert cur. induction pre as [|c pre IH]; intros cur Hfirst.
  - destruct sep as [|a sep']; [congruence|].
    assert (Hstart : startswith ((a :: sep') ++ rest) (a :: sep') = true)
      by (apply startswith_prefix; now exists rest).
    change ([] ++ (a :: sep') ++ rest) with (a :: (sep' ++ rest)).
    change ((a :: sep') ++ rest) with (a :: (sep' ++ rest)) in Hstart.
    rewrite split_sep_cons, Hstart, app_nil_r. f_equal.
    change (List.length (a :: sep') - 1) with (List.length sep' - 0).
    rewrite Nat.sub_0_r. apply split_sep_skip.
  - change ((c :: pre) ++ sep ++ rest) with (c :: (pre ++ sep ++ rest)).
    rewrite split_sep_cons, (Hfirst [] c pre eq_refl), IH.
    + simpl. now rewrite <- app_assoc.
    + intros p1 c' p2 ->. now apply (Hfirst (c :: p1) c' p2).
Qed.

Lemma startswith_firstn (p s : str) :
  startswith s p = true <-> firstn (List.length p) s = p.
Proof.
  revert s. induction p as [|a p IH]; intros s; simpl; [tauto|].
  destruct s as [|b s]; [split; discriminate|].
  rewrite andb_true_iff, N.eqb_eq, IH. simpl. split.
  - intros [-> ->]. reflexivity.
  - intros [= -> ->]. now split.
Qed.

(** A match that starts in [x] ends before the last character of a
    separator that follows [x]. *)
Lemma startswith_before (sep x y : str) :
  x <> [] ->
  startswith (x ++ y) sep = true ->
  startswith (x ++ firstn (List.length sep - 1) y) sep = true.
Proof.
  intros Hx. rewrite !startswith_firstn, !firstn_app, firstn_firstn.
  replace (Nat.min (List.length sep - List.length x) (List.length sep - 1))
    with (List.length sep - List.length x); [tauto|].
  destruct x; [congruence|]. simpl List.length. lia.
Qed.

Lemma lstrip_repeat (chars : N -> bool) (c : N) (k : nat) (s : str) :
  chars c = true ->
  Main.lstrip chars (repeat c k ++ s) = Main.lstrip chars s.
Proof.
  intros Hc. induction k as [|k IH]; simpl; [reflexivity|]. now rewrite Hc.
Qed.

Lemma rstrip_slashes (name : str) (k : nat) :
  (forall init, name <> init ++ [47%N]) ->
  Main.rstrip (N.eqb 47) (name ++ repeat 47%N k) = name.
Proof.
  intros Hend. unfold Main.rstrip.
  rewrite rev_app_distr, rev_repeat, lstrip_repeat by reflexivity.
  destruct (rev name) as [|c r] eqn:Hrev.
  - apply (f_equal (@rev N)) in Hrev. rewrite rev_involutive in Hrev.
    now rewrite Hrev.
  - cbn [Main.lstrip]. destruct (N.eqb_spec 47 c) as [<- | _].
    + exfalso. apply (Hend (rev r)).
      apply (f_equal (@rev N)) in Hrev. rewrite rev_involutive in Hrev.
      exact Hrev.
    + rewrite <- Hrev. apply rev_involutive.
Qed.

Lemma lower_keeps_slash (U : UnicodeData) (s before : str) :
  In 47%N s -> In 47%N (lower_from U before s).
Proof.
  revert before. induction s as [|c s IH]; intros before; [intros []|].
  intros [-> | Hin].
  - simpl. now left.
  - cbn [lower_from]. apply in_or_app. right. now apply IH.
Qed.

Lemma with_user_is_not_quit (U : UnicodeData) (pre rest : str) :
  str_eqb (lower U (pre ++ lit "/user/" ++ rest)) (lit "quit") = false.
Proof.
  apply not_true_iff_false. rewrite str_eqb_eq. intros Heq.
  assert (Hin : In 47%N (lower U (pre ++ lit "/user/" ++ rest))).
  { apply lower_keeps_slash, in_or_app. right. now left. }
  rewrite Heq in Hin. simpl in Hin. intuition discriminate.
Qed.

(** X17.  Working out the command from a line that was read never raises:
    whenever the line holds "/user/", it splits into two pieces at least, so
    taking the second piece raises no [IndexError].  (The read itself, which
    raises at the end of the input, is not part of [read_username].) *)
Theorem read_username_returns (U : UnicodeData) (line : str) :
  exists command, Main.read_username U line = Ok command.
Proof.
  unfold Main.read_username.
  destruct (str_eqb _ (lit "quit")); [now eexists|].
  destruct (contains (lit "/user/") _) eqn:Hin; [|now eexists].
  pose proof (@split_sep_two (lit "/user/")
                (Main.strip (Char.isspace U) line) []
                ltac:(discriminate) Hin) as Htwo.
  unfold Main.getindex.
  destruct (Main.split_sep _ 0 [] _) as [|first [|second pieces]];
    simpl in Htwo; try lia.
  simpl. now eexists.
Qed.

(** X18.  A line that is, between white space, a text that ends with
    "/user/", a name and any number of slashes is read as that name: the
    name is what follows the first "/user/", without the slashes at its
    end.  The name is taken not to end with a slash and, with the slashes,
    not to hold "/user/" again. *)
Theorem profile_url_gives_the_name
    (U : UnicodeData) (line pre name : str) (k : nat)
    (stripped : Main.strip (Char.isspace U) line
                = pre ++ lit "/user/" ++ name ++ repeat 47%N k)
    (first : ~ substring (lit "/user/") (pre ++ lit "/user"))
    (no_other : ~ substring (lit "/user/") (name ++ repeat 47%N k))
    (name_end : forall init, name <> init ++ [47%N]) :
  Main.read_username U line = Ok (Main.Analyze name).
Proof.
  unfold Main.read_username. rewrite stripped, with_user_is_not_quit.
  assert (Hin : contains (lit "/user/")
                  (pre ++ lit "/user/" ++ name ++ repeat 47%N k) = true).
  { apply contains_substring. now exists pre, (name ++ repeat 47%N k). }
  assert (Hfirst : forall p1 c p2,
             pre = p1 ++ c :: p2 ->
             startswith
               (c :: p2 ++ lit "/user/" ++ name ++ repeat 47%N k)
               (lit "/user/") = false).
  { intros p1 c p2 ->. apply not_true_iff_false. intros Hstart.
    apply first.
    apply (@startswith_before (lit "/user/") (c :: p2)
             (lit "/user/" ++ name ++ repeat 47%N k))
      in Hstart; [|discriminate].
    change (firstn (List.length (lit "/user/") - 1)
              (lit "/user/" ++ name ++ repeat 47%N k))
      with (lit "/user") in Hstart.
    apply startswith_prefix in Hstart. destruct Hstart as [after Hafter].
    exists p1, after. rewrite <- app_assoc.
    change ((c :: p2) ++ lit "/user") with (c :: p2 ++ lit "/user").
    now rewrite <- Hafter. }
  rewrite Hin.
  rewrite (@split_sep_first (lit "/user/") pre [] (name ++ repeat 47%N k)
             ltac:(discriminate) Hfirst).
  rewrite (@split_sep_none (lit "/user/") (name ++ repeat 47%N k) [] no_other).
  unfold Main.getindex. cbn [nth_error bind rev app].
  now rewrite rstrip_slashes.
Qed.

Lemma profile_url_gives_the_name_witness :
  Main.read_username sigma_db (lit "  https://www.reddit.com/user/spez/ ")
  = Ok (Main.Analyze (lit "spez")).
Proof.
  apply (@profile_url_gives_the_name sigma_db
           (lit "  https://www.reddit.com/user/spez/ ")
           (lit "https://www.reddit.com") (lit "spez") 1).
  - reflexivity.
  - rewrite <- contains_substring. vm_compute. discriminate.
  - rewrite <- contains_substring. vm_compute. discriminate.
  - intros init H. apply (f_equal (@rev N)) in H.
    rewrite rev_app_distr in H. simpl in H. discriminate H.
Defined.
